(** * Income tax calculator (FY 2025-26): the tax engine of [src/app/page.tsx]

    The engine lives inside the [Home] component: the slab tables, the
    three-rule HRA exemption, the home-loan split, the slab loop
    [calculateTax], the old-regime aggregation [calculateOldRegimeTax], the
    income handler and the summary card.

    Numbers.  A JavaScript [number] is an IEEE-754 double.  Amounts are
    modelled here as exact rationals [Q]: every operation the engine uses
    ([+], [-], [*], [/ 100], [Math.min], [Math.max], [<], [<=]) is then the
    exact one, and the literals [0.5], [0.4] and [0.1] are the rationals
    1/2, 2/5 and 1/10.  Equality of amounts is [Qeq] ([==]).  The one
    non-finite number the source uses, [Infinity] as the upper bound of the
    last slab, is a constructor of its own. *)

From Stdlib Require Import QArith Qminmax Lqa List.
Import ListNotations.

Open Scope Q_scope.

(** ** Data model *)

(** The [max] field of a slab: a number or [Infinity]. *)
Inductive Bound : Type :=
| Finite (q : Q)
| Infinity.

(** [type TaxSlab]; the two optional fields are [None] when absent. *)
Record TaxSlab : Type := mkSlab {
  min : Q;
  max : Bound;
  rate : Q;
  fixedAmount : option Q;
  surcharge : option Q
}.

(** A slab literal of the source, which sets [min], [max] and [rate] only. *)
Definition slab (lo : Q) (hi : Bound) (r : Q) : TaxSlab :=
  mkSlab lo hi r None None.

Definition NEW_REGIME_SLABS : list TaxSlab :=
  [ slab 0 (Finite 400000) 0;
    slab 400001 (Finite 800000) 5;
    slab 800001 (Finite 1200000) 10;
    slab 1200001 (Finite 1600000) 15;
    slab 1600001 (Finite 2000000) 20;
    slab 2000001 (Finite 2400000) 25;
    slab 2400001 Infinity 30 ].

Definition OLD_REGIME_SLABS : list TaxSlab :=
  [ slab 0 (Finite 300000) 0;
    slab 300001 (Finite 700000) 5;
    slab 700001 (Finite 1000000) 10;
    slab 1000001 (Finite 1200000) 15;
    slab 1200001 (Finite 1500000) 20;
    slab 1500001 Infinity 30 ].

Definition STANDARD_DEDUCTION : Q := 75000.
Definition OLD_REGIME_STANDARD_DEDUCTION : Q := 50000.
Definition SECTION_80C_LIMIT : Q := 150000.
Definition SECTION_80CCD_LIMIT : Q := 50000.
Definition SECTION_80TTA_LIMIT : Q := 10000.
Definition SECTION_80G_LIMIT : Q := 100000.

(** The [salaryDetails] state object. *)
Record SalaryDetails : Type := mkSalary {
  basic : Q;
  hraReceived : Q;
  rentPaid : Q;
  metroCity : bool
}.

(** [deductions.section80D]. *)
Record Section80D : Type := mk80D {
  self : Q;
  parents : Q;
  parentsSenior : bool
}.

(** [deductions.homeLoan]. *)
Record HomeLoan : Type := mkHomeLoan {
  principal : Q;
  interest : Q
}.

(** The [deductions] state object. *)
Record Deductions : Type := mkDeductions {
  section80C : Q;
  section80D : Section80D;
  section80CCD : Q;
  section80TTA : Q;
  section80G : Q;
  hra : Q;
  nps : Q;
  educationLoan : Q;
  homeLoan : HomeLoan
}.

(** The initial values of [useState]. *)
Definition initialSalaryDetails : SalaryDetails := mkSalary 0 0 0 false.

Definition initialDeductions : Deductions :=
  mkDeductions 0 (mk80D 0 0 false) 0 0 0 0 0 0 (mkHomeLoan 0 0).

(** ** Comparisons of the source on [Q] *)

(** [x < y] as a boolean test. *)
Definition Qltb (x y : Q) : bool :=
  match x ?= y with
  | Lt => true
  | _ => false
  end.

(** Truthiness of a number: [0] is falsy. *)
Definition truthy (x : Q) : bool := negb (Qeq_bool x 0).

(** ** [calculateHRA] *)

Definition hraRule1 (sd : SalaryDetails) : Q := hraReceived sd.

Definition hraRule2 (sd : SalaryDetails) : Q :=
  (if metroCity sd then 1 # 2 else 2 # 5) * basic sd.

Definition hraRule3 (sd : SalaryDetails) : Q :=
  Qmax 0 (rentPaid sd - (1 # 10) * basic sd).

(** [Math.min(rule1, rule2, rule3)]. *)
Definition calculateHRA (sd : SalaryDetails) : Q :=
  Qmin (Qmin (hraRule1 sd) (hraRule2 sd)) (hraRule3 sd).

(** ** [calculateHomeLoanDeductions] *)

Record HomeLoanDeductions : Type := mkHLD {
  hl_principal : Q;
  hl_interest : Q;
  hl_total : Q
}.

Definition calculateHomeLoanDeductions (d : Deductions) : HomeLoanDeductions :=
  let principalDeduction :=
    Qmin (principal (homeLoan d)) (SECTION_80C_LIMIT - section80C d) in
  let interestDeduction := Qmin (interest (homeLoan d)) 200000 in
  mkHLD principalDeduction interestDeduction
        (principalDeduction + interestDeduction).

(** ** [calculateTax] *)

(** The amount of the remaining income taxed in one slab. *)
Definition taxableAmount (s : TaxSlab) (remainingIncome : Q) : Q :=
  Qmin remainingIncome
       (match max s with
        | Infinity => remainingIncome
        | Finite hi => hi - min s + 1
        end).

(** [slab.fixedAmount || 0]. *)
Definition baseTax (s : TaxSlab) : Q :=
  match fixedAmount s with
  | Some f => if truthy f then f else 0
  | None => 0
  end.

Definition rateTax (s : TaxSlab) (remainingIncome : Q) : Q :=
  (taxableAmount s remainingIncome * rate s) / 100.

(** The running total after [totalTax += baseTax + rateTax]. *)
Definition taxAfterSlab (s : TaxSlab) (totalTax remainingIncome : Q) : Q :=
  totalTax + (baseTax s + rateTax s remainingIncome).

(** The surcharge block: [if ('surcharge' in slab && slab.surcharge)]
    adds [(totalTax * slab.surcharge) / 100] to [totalTax]. *)
Definition applySurcharge (s : TaxSlab) (totalTax : Q) : Q :=
  match surcharge s with
  | Some sc =>
      if truthy sc then totalTax + (totalTax * sc) / 100 else totalTax
  | None => totalTax
  end.

(** The body of the [for] loop below the [break] test: the new
    [(totalTax, remainingIncome)]. *)
Definition slabStep (s : TaxSlab) (totalTax remainingIncome : Q) : Q * Q :=
  (applySurcharge s (taxAfterSlab s totalTax remainingIncome),
   remainingIncome - taxableAmount s remainingIncome).

(** The [for (const slab of slabs)] loop from a given loop state. *)
Fixpoint calculateTaxFrom (slabs : list TaxSlab)
         (totalTax remainingIncome : Q) : Q :=
  match slabs with
  | [] => totalTax
  | s :: rest =>
      if Qle_bool remainingIncome 0 then totalTax
      else
        let '(totalTax', remainingIncome') :=
          slabStep s totalTax remainingIncome in
        calculateTaxFrom rest totalTax' remainingIncome'
  end.

Definition calculateTax (income : Q) (slabs : list TaxSlab) : Q :=
  calculateTaxFrom slabs 0 income.

(** ** [calculateOldRegimeTax] *)

Definition selfAndFamilyLimit : Q := 25000.

Definition parentsLimit (d : Deductions) : Q :=
  if parentsSenior (section80D d) then 50000 else 25000.

Definition total80DLimit (d : Deductions) : Q :=
  selfAndFamilyLimit + parentsLimit d.

Definition section80DDeduction (d : Deductions) : Q :=
  Qmin (total80DLimit d) (self (section80D d) + parents (section80D d)).

(** The Section 80C term of the taxable income:
    [Math.min(deductions.section80C + homeLoanDeductions.principal,
    SECTION_80C_LIMIT)]. *)
Definition combined80CDeduction (d : Deductions) : Q :=
  Qmin (section80C d + hl_principal (calculateHomeLoanDeductions d))
       SECTION_80C_LIMIT.

Definition oldRegimeTaxableIncome
           (sd : SalaryDetails) (d : Deductions) (income : Q) : Q :=
  Qmax 0
       (income
        - OLD_REGIME_STANDARD_DEDUCTION
        - combined80CDeduction d
        - section80DDeduction d
        - Qmin (section80CCD d) SECTION_80CCD_LIMIT
        - Qmin (section80TTA d) SECTION_80TTA_LIMIT
        - Qmin (section80G d) SECTION_80G_LIMIT
        - calculateHRA sd
        - nps d
        - educationLoan d
        - hl_interest (calculateHomeLoanDeductions d)).

Definition calculateOldRegimeTax
           (sd : SalaryDetails) (d : Deductions) (income : Q) : Q :=
  calculateTax (oldRegimeTaxableIncome sd d income) OLD_REGIME_SLABS.

(** ** The component state and [handleIncomeChange] *)

(** The state of [Home] the engine reads and writes; the [age] selection is
    left out, no calculation reads it. *)

Record State : Type := mkState {
  income : Q;
  salaryDetails : SalaryDetails;
  deductions : Deductions;
  newRegimeTax : Q;
  oldRegimeTax : Q
}.

Definition initialState : State :=
  mkState 0 initialSalaryDetails initialDeductions 0 0.

(** The text of the income field as the handler sees it: empty, a text
    [parseFloat] turns into [NaN], or a text it parses to a number. *)
Inductive InputValue : Type :=
| EmptyText
| Unparsable
| Parsed (numValue : Q).

Definition handleIncomeChange (st : State) (value : InputValue) : State :=
  match value with
  | EmptyText =>
      mkState 0 (salaryDetails st) (deductions st) 0 0
  | Unparsable => st
  | Parsed numValue =>
      mkState numValue (salaryDetails st) (deductions st)
              (calculateTax numValue NEW_REGIME_SLABS)
              (calculateOldRegimeTax (salaryDetails st) (deductions st)
                                     numValue)
  end.

(** ** The summary card *)

(** The Section 80D term of "Total Deductions (Old Regime)". *)
Definition display80D (d : Deductions) : Q :=
  Qmin (self (section80D d) + parents (section80D d))
       (if parentsSenior (section80D d) then 75000 else 50000).

(** "Total Deductions (Old Regime)". *)
Definition displayTotalDeductions (sd : SalaryDetails) (d : Deductions) : Q :=
  OLD_REGIME_STANDARD_DEDUCTION
  + Qmin (section80C d) SECTION_80C_LIMIT
  + display80D d
  + Qmin (section80CCD d) SECTION_80CCD_LIMIT
  + Qmin (section80TTA d) SECTION_80TTA_LIMIT
  + Qmin (section80G d) SECTION_80G_LIMIT
  + calculateHRA sd
  + nps d
  + educationLoan d
  + Qmin (interest (homeLoan d)) 200000.

Inductive Regime : Type :=
| NewRegime
| OldRegime.

(** [newRegimeTax < oldRegimeTax ? "New Regime" : "Old Regime"]. *)
Definition recommendedRegime (newTax oldTax : Q) : Regime :=
  if Qltb newTax oldTax then NewRegime else OldRegime.

Definition recommended (st : State) : Regime :=
  recommendedRegime (newRegimeTax st) (oldRegimeTax st).

(** ** Example inputs *)

(** Section 80C investments 100000 and home-loan principal 100000. *)
Definition example80C : Deductions :=
  mkDeductions 100000 (mk80D 0 0 false) 0 0 0 0 0 0 (mkHomeLoan 100000 0).

(** Basic 50000, HRA received 25000, rent paid 20000, metro city. *)
Definition exampleSalary : SalaryDetails := mkSalary 50000 25000 20000 true.

(** Section 80C investments 200000 and home-loan principal 10000. *)
Definition exampleOver80C : Deductions :=
  mkDeductions 200000 (mk80D 0 0 false) 0 0 0 0 0 0 (mkHomeLoan 10000 0).

(** Home-loan principal 100000 and nothing else. *)
Definition examplePrincipalOnly : Deductions :=
  mkDeductions 0 (mk80D 0 0 false) 0 0 0 0 0 0 (mkHomeLoan 100000 0).

(** The deductions of the Section 80D example: self 30000, parents 40000,
    senior parents, everything else at its initial value. *)
Definition example80D : Deductions :=
  mkDeductions 0 (mk80D 30000 40000 true) 0 0 0 0 0 0 (mkHomeLoan 0 0).

(** A two-slab table whose second slab carries a 10% surcharge. *)
Definition surchargeSlab : TaxSlab :=
  mkSlab 100 Infinity 20 None (Some 10).

Definition surchargeTable : list TaxSlab :=
  [ slab 0 (Finite 99) 10; surchargeSlab ].

(** Slabs in ascending order: each slab starts above the one before. *)
Fixpoint ascending (slabs : list TaxSlab) : bool :=
  match slabs with
  | s :: ((s' :: _) as rest) => Qltb (min s) (min s') && ascending rest
  | _ => true
  end.

(** ** The other input handlers *)

(** Every handler below ends with [setOldRegimeTax(calculateOldRegimeTax(income))].
    The call runs inside the handler's closure, so it reads the [income],
    [salaryDetails] and [deductions] of the render the handler belongs to:
    the state before the update the handler has just queued. *)
Definition closureOldRegimeTax (st : State) : Q :=
  calculateOldRegimeTax (salaryDetails st) (deductions st) (income st).

(** The state after [setSalaryDetails] and [setOldRegimeTax]. *)
Definition commitSalary (st : State) (sd' : SalaryDetails) : State :=
  mkState (income st) sd' (deductions st) (newRegimeTax st)
          (closureOldRegimeTax st).

(** The state after [setDeductions] and [setOldRegimeTax]. *)
Definition commitDeductions (st : State) (d' : Deductions) : State :=
  mkState (income st) (salaryDetails st) d' (newRegimeTax st)
          (closureOldRegimeTax st).

(** [keyof typeof salaryDetails]. *)
Inductive SalaryKey : Type :=
| basicKey
| hraReceivedKey
| rentPaidKey
| metroCityKey.

(** The [string | boolean] argument of [handleSalaryDetailChange]. *)
Inductive FieldValue : Type :=
| BoolValue (b : bool)
| TextValue (v : InputValue).

(** [{...prev, [key]: numValue}].  A number stored under [metroCity] is
    read back by [metroCity ? 0.5 : 0.4] through its truthiness. *)
Definition setSalaryNumber
           (sd : SalaryDetails) (key : SalaryKey) (q : Q) : SalaryDetails :=
  match key with
  | basicKey => mkSalary q (hraReceived sd) (rentPaid sd) (metroCity sd)
  | hraReceivedKey => mkSalary (basic sd) q (rentPaid sd) (metroCity sd)
  | rentPaidKey => mkSalary (basic sd) (hraReceived sd) q (metroCity sd)
  | metroCityKey =>
      mkSalary (basic sd) (hraReceived sd) (rentPaid sd) (truthy q)
  end.

(** [{...prev, [key]: value}] for a boolean.  A boolean stored under an
    amount is read back by the arithmetic of [calculateHRA] as 1 or 0. *)
Definition setSalaryBool
           (sd : SalaryDetails) (key : SalaryKey) (b : bool) : SalaryDetails :=
  match key with
  | metroCityKey => mkSalary (basic sd) (hraReceived sd) (rentPaid sd) b
  | _ => setSalaryNumber sd key (if b then 1 else 0)
  end.

Definition handleSalaryDetailChange
           (st : State) (key : SalaryKey) (value : FieldValue) : State :=
  match value with
  | BoolValue b =>
      commitSalary st (setSalaryBool (salaryDetails st) key b)
  | TextValue EmptyText =>
      commitSalary st (setSalaryNumber (salaryDetails st) key 0)
  | TextValue Unparsable => commitSalary st (salaryDetails st)
  | TextValue (Parsed numValue) =>
      commitSalary st (setSalaryNumber (salaryDetails st) key numValue)
  end.

(** The keys of [deductions] that hold a number.  The keys [section80D] and
    [homeLoan] hold objects and have handlers of their own. *)
Inductive DeductionKey : Type :=
| section80CKey
| section80CCDKey
| section80TTAKey
| section80GKey
| hraKey
| npsKey
| educationLoanKey.

Definition setDeduction
           (d : Deductions) (key : DeductionKey) (q : Q) : Deductions :=
  match key with
  | section80CKey =>
      mkDeductions q (section80D d) (section80CCD d) (section80TTA d)
                   (section80G d) (hra d) (nps d) (educationLoan d)
                   (homeLoan d)
  | section80CCDKey =>
      mkDeductions (section80C d) (section80D d) q (section80TTA d)
                   (section80G d) (hra d) (nps d) (educationLoan d)
                   (homeLoan d)
  | section80TTAKey =>
      mkDeductions (section80C d) (section80D d) (section80CCD d) q
                   (section80G d) (hra d) (nps d) (educationLoan d)
                   (homeLoan d)
  | section80GKey =>
      mkDeductions (section80C d) (section80D d) (section80CCD d)
                   (section80TTA d) q (hra d) (nps d) (educationLoan d)
                   (homeLoan d)
  | hraKey =>
      mkDeductions (section80C d) (section80D d) (section80CCD d)
                   (section80TTA d) (section80G d) q (nps d)
                   (educationLoan d) (homeLoan d)
  | npsKey =>
      mkDeductions (section80C d) (section80D d) (section80CCD d)
                   (section80TTA d) (section80G d) (hra d) q
                   (educationLoan d) (homeLoan d)
  | educationLoanKey =>
      mkDeductions (section80C d) (section80D d) (section80CCD d)
                   (section80TTA d) (section80G d) (hra d) (nps d) q
                   (homeLoan d)
  end.

(** What a text field stores: 0 for the empty text, nothing for a text that
    does not parse, the number otherwise. *)
Definition storedNumber (value : InputValue) : option Q :=
  match value with
  | EmptyText => Some 0
  | Unparsable => None
  | Parsed numValue => Some numValue
  end.

Definition handleDeductionChange
           (st : State) (key : DeductionKey) (value : InputValue) : State :=
  match storedNumber value with
  | Some q => commitDeductions st (setDeduction (deductions st) key q)
  | None => commitDeductions st (deductions st)
  end.

Inductive HomeLoanKey : Type :=
| principalKey
| interestKey.

Definition setHomeLoan
           (d : Deductions) (type : HomeLoanKey) (q : Q) : Deductions :=
  mkDeductions (section80C d) (section80D d) (section80CCD d)
               (section80TTA d) (section80G d) (hra d) (nps d)
               (educationLoan d)
               (match type with
                | principalKey => mkHomeLoan q (interest (homeLoan d))
                | interestKey => mkHomeLoan (principal (homeLoan d)) q
                end).

Definition handleHomeLoanChange
           (st : State) (type : HomeLoanKey) (value : InputValue) : State :=
  match storedNumber value with
  | Some q => commitDeductions st (setHomeLoan (deductions st) type q)
  | None => commitDeductions st (deductions st)
  end.

Inductive InsuranceKey : Type :=
| selfKey
| parentsKey.

Definition set80D (d : Deductions) (s80D : Section80D) : Deductions :=
  mkDeductions (section80C d) s80D (section80CCD d) (section80TTA d)
               (section80G d) (hra d) (nps d) (educationLoan d) (homeLoan d).

Definition setInsurance
           (d : Deductions) (type : InsuranceKey) (q : Q) : Deductions :=
  set80D d
         (match type with
          | selfKey =>
              mk80D q (parents (section80D d)) (parentsSenior (section80D d))
          | parentsKey =>
              mk80D (self (section80D d)) q (parentsSenior (section80D d))
          end).

Definition handleHealthInsuranceChange
           (st : State) (type : InsuranceKey) (value : InputValue) : State :=
  match storedNumber value with
  | Some q => commitDeductions st (setInsurance (deductions st) type q)
  | None => commitDeductions st (deductions st)
  end.

Definition handleParentsSeniorChange (st : State) (checked : bool) : State :=
  commitDeductions st
    (set80D (deductions st)
            (mk80D (self (section80D (deductions st)))
                   (parents (section80D (deductions st))) checked)).

(** The [onChange] of the age selector: [setAge] and the recomputation of
    the old-regime tax ([age] itself is not part of [State]). *)
Definition handleAgeChange (st : State) : State :=
  commitDeductions st (deductions st).

(** [e.target.value || '0'], the text the [onBlur] of an amount field
    passes on. *)
Definition blurText (value : InputValue) : InputValue :=
  match value with
  | EmptyText => Parsed 0
  | _ => value
  end.

(** The events of the form, one per handler. *)
Inductive Event : Type :=
| IncomeChange (value : InputValue)
| SalaryDetailChange (key : SalaryKey) (value : FieldValue)
| DeductionChange (key : DeductionKey) (value : InputValue)
| HomeLoanChange (type : HomeLoanKey) (value : InputValue)
| HealthInsuranceChange (type : InsuranceKey) (value : InputValue)
| ParentsSeniorChange (checked : bool)
| AgeChange.

Definition handleEvent (st : State) (e : Event) : State :=
  match e with
  | IncomeChange value => handleIncomeChange st value
  | SalaryDetailChange key value => handleSalaryDetailChange st key value
  | DeductionChange key value => handleDeductionChange st key value
  | HomeLoanChange type value => handleHomeLoanChange st type value
  | HealthInsuranceChange type value =>
      handleHealthInsuranceChange st type value
  | ParentsSeniorChange checked => handleParentsSeniorChange st checked
  | AgeChange => handleAgeChange st
  end.

(** The state after a sequence of events, each handled in the render the
    one before has produced. *)
Definition runEvents (st : State) (events : list Event) : State :=
  fold_left handleEvent events st.

Definition isIncomeChange (e : Event) : bool :=
  match e with
  | IncomeChange _ => true
  | _ => false
  end.

(** The event the [onBlur] of an amount field raises after [e]: the same
    handler with [blurText] of the text.  Check boxes, the age selector and
    the income field have no [onBlur]. *)
Definition blurEvent (e : Event) : Event :=
  match e with
  | SalaryDetailChange key (TextValue v) =>
      SalaryDetailChange key (TextValue (blurText v))
  | DeductionChange key v => DeductionChange key (blurText v)
  | HomeLoanChange type v => HomeLoanChange type (blurText v)
  | HealthInsuranceChange type v => HealthInsuranceChange type (blurText v)
  | _ => e
  end.

(** An income of 1000000, then Section 80C investments of 150000. *)
Definition exampleEvents : list Event :=
  [ IncomeChange (Parsed 1000000);
    DeductionChange section80CKey (Parsed 150000) ].

(** A state with income 1200000 and the salary details and deductions of
    the examples, both stored taxes still at 0. *)
Definition exampleState : State :=
  mkState 1200000 exampleSalary example80C 0 0.

(** The example state once the income 1200000 has been typed: both stored
    taxes are those of the stored inputs. *)
Definition exampleEnteredState : State :=
  handleIncomeChange exampleState (Parsed 1200000).

(** A Section 80G donation of 50000 typed into its field. *)
Definition exampleDonation : Event :=
  DeductionChange section80GKey (Parsed 50000).

(** ** The HRA card *)

(** The three annual figures the HRA card lists above the exemption. *)
Definition hraCardRule1 (sd : SalaryDetails) : Q := hraReceived sd * 12.

Definition hraCardRule2 (sd : SalaryDetails) : Q :=
  (if metroCity sd then 1 # 2 else 2 # 5) * basic sd * 12.

Definition hraCardRule3 (sd : SalaryDetails) : Q :=
  Qmax 0 (rentPaid sd * 12 - ((1 # 10) * basic sd * 12)).

(** ** Conditions on inputs and tables *)

(** A slab with non-negative rate, fixed amount and surcharge, and a
    non-negative width when its upper bound is finite. *)
Definition wellFormedSlab (s : TaxSlab) : bool :=
  Qle_bool 0 (rate s)
  && Qle_bool 0 (baseTax s)
  && match surcharge s with
     | Some sc => Qle_bool 0 sc
     | None => true
     end
  && match max s with
     | Finite hi => Qle_bool 0 (hi - min s + 1)
     | Infinity => true
     end.

(** A well-formed slab that has neither fixed amount nor surcharge and whose
    rate is at most [top]. *)
Definition plainSlab (top : Q) (s : TaxSlab) : bool :=
  wellFormedSlab s
  && Qle_bool (rate s) top
  && match fixedAmount s with Some _ => false | None => true end
  && match surcharge s with Some _ => false | None => true end.

(** All amounts of the salary details and of the deductions the old-regime
    tax reads are non-negative. *)
Definition nonNegativeInputs (sd : SalaryDetails) (d : Deductions) : Prop :=
  0 <= basic sd /\ 0 <= hraReceived sd /\ 0 <= rentPaid sd
  /\ 0 <= section80C d
  /\ 0 <= self (section80D d) /\ 0 <= parents (section80D d)
  /\ 0 <= section80CCD d /\ 0 <= section80TTA d /\ 0 <= section80G d
  /\ 0 <= nps d /\ 0 <= educationLoan d
  /\ 0 <= principal (homeLoan d) /\ 0 <= interest (homeLoan d).

(** * Properties *)

(** ** Basic facts about the comparisons and the loop *)

Lemma Qltb_lt (x y : Q) : Qltb x y = true <-> x < y.
Proof.
  unfold Qltb. rewrite Qlt_alt.
  destruct (x ?= y); split; intro H; congruence.
Qed.

Lemma Qle_bool_false (x y : Q) : Qle_bool x y = false <-> y < x.
Proof.
  split; intro H.
  - apply Qnot_le_lt. intro Hle. apply Qle_bool_iff in Hle. congruence.
  - destruct (Qle_bool x y) eqn:E; [ | reflexivity ].
    apply Qle_bool_iff in E. lra.
Qed.

Lemma Qmin_same (x : Q) : Qmin x x = x.
Proof.
  unfold Qmin, GenericMinMax.gmin. destruct (x ?= x); reflexivity.
Qed.

(** The loop stops at once on an exhausted income. *)
Lemma calculateTaxFrom_exhausted (slabs : list TaxSlab) (totalTax r : Q) :
  r <= 0 -> calculateTaxFrom slabs totalTax r = totalTax.
Proof.
  intro Hr. destruct slabs as [ | s rest ]; [ reflexivity | ].
  simpl. apply Qle_bool_iff in Hr. rewrite Hr. reflexivity.
Qed.

(** One iteration on a positive remaining income. *)
Lemma calculateTaxFrom_step (s : TaxSlab) (rest : list TaxSlab)
      (totalTax r : Q) :
  0 < r ->
  calculateTaxFrom (s :: rest) totalTax r
  = calculateTaxFrom rest
      (applySurcharge s (taxAfterSlab s totalTax r))
      (r - taxableAmount s r).
Proof.
  intro Hr. simpl. apply Qle_bool_false in Hr. rewrite Hr. reflexivity.
Qed.

(** ** The new-regime tax set by the income handler *)

(** C1 (the code departs from it).  On a parsed income the handler stores
    [calculateTax numValue NEW_REGIME_SLABS]: the gross income goes to the
    slab loop as it is, and [STANDARD_DEDUCTION] is not subtracted.  At
    gross income 500000 the stored new-regime tax is 4999.95, while the slab
    tax on max(0, 500000 - 75000) is 1249.95. *)
Theorem handleIncomeChange_newRegimeTax_on_gross_income :
  (forall (st : State) (numValue : Q),
      newRegimeTax (handleIncomeChange st (Parsed numValue))
      = calculateTax numValue NEW_REGIME_SLABS)
  /\ newRegimeTax (handleIncomeChange initialState (Parsed 500000))
     == 499995 # 100
  /\ calculateTax (Qmax 0 (500000 - STANDARD_DEDUCTION)) NEW_REGIME_SLABS
     == 124995 # 100
  /\ ~ newRegimeTax (handleIncomeChange initialState (Parsed 500000))
       == calculateTax (Qmax 0 (500000 - STANDARD_DEDUCTION))
                       NEW_REGIME_SLABS.
Proof.
  split; [ | split; [ | split ] ].
  - intros st numValue. reflexivity.
  - vm_compute. reflexivity.
  - vm_compute. reflexivity.
  - vm_compute. intro H. discriminate H.
Qed.

(** ** The boundary of the first new-regime slab *)

(** C2 (the code departs from it).  The slab tax on the new-regime table is
    0 at 400000, and it is still 0 at 400001: the first slab, with bounds 0
    and 400000, takes [400000 - 0 + 1 = 400001] rupees at rate 0, so the
    rupee numbered 400001, which the table puts in the 5% slab, is not
    taxed.  The value 0.05 is first reached at 400002. *)
Theorem calculateTax_new_regime_first_boundary :
  calculateTax 400000 NEW_REGIME_SLABS == 0
  /\ calculateTax 400001 NEW_REGIME_SLABS == 0
  /\ ~ calculateTax 400001 NEW_REGIME_SLABS == 5 # 100
  /\ calculateTax 400002 NEW_REGIME_SLABS == 5 # 100.
Proof.
  split; [ | split; [ | split ] ].
  - vm_compute. reflexivity.
  - vm_compute. reflexivity.
  - vm_compute. intro H. discriminate H.
  - vm_compute. reflexivity.
Qed.

(** The same shift holds on the whole of the first two slabs: up to 400001
    the tax is 0, and from there up to 800001 it is 5% of the income above
    400001. *)
Lemma calculateTax_new_regime_first_slab (income : Q) :
  income <= 400001 -> calculateTax income NEW_REGIME_SLABS == 0.
Proof.
  intro Hi. unfold calculateTax, NEW_REGIME_SLABS.
  destruct (Qlt_le_dec 0 income) as [Hpos | Hneg].
  - rewrite (calculateTaxFrom_step _ _ 0 income Hpos).
    assert (Ht : taxableAmount (slab 0 (Finite 400000) 0) income == income).
    { unfold taxableAmount. simpl. apply Q.min_l. lra. }
    assert (Hleft : income - taxableAmount (slab 0 (Finite 400000) 0) income
                    <= 0) by lra.
    rewrite (calculateTaxFrom_exhausted _ _ _ Hleft).
    unfold applySurcharge, taxAfterSlab, rateTax, baseTax. simpl. field.
  - rewrite calculateTaxFrom_exhausted by exact Hneg. reflexivity.
Qed.

Lemma calculateTax_new_regime_second_slab (income : Q) :
  400001 < income ->
  income <= 800001 ->
  calculateTax income NEW_REGIME_SLABS == ((income - 400001) * 5) / 100.
Proof.
  intros Hlo Hhi. unfold calculateTax, NEW_REGIME_SLABS.
  assert (Ht1 : taxableAmount (slab 0 (Finite 400000) 0) income == 400001).
  { unfold taxableAmount. simpl.
    destruct (Q.min_spec income (400000 - 0 + 1)) as [[H E]|[H E]];
      rewrite E; lra. }
  assert (Hpos : 0 < income) by lra.
  rewrite (calculateTaxFrom_step _ _ 0 income Hpos).
  set (r1 := income - taxableAmount (slab 0 (Finite 400000) 0) income).
  assert (Hr1 : r1 == income - 400001) by (unfold r1; rewrite Ht1; lra).
  assert (Ht2 : taxableAmount (slab 400001 (Finite 800000) 5) r1 == r1).
  { unfold taxableAmount. simpl. apply Q.min_l. lra. }
  assert (Hpos1 : 0 < r1) by lra.
  rewrite (calculateTaxFrom_step _ _ _ r1 Hpos1).
  assert (Hleft : r1 - taxableAmount (slab 400001 (Finite 800000) 5) r1 <= 0)
    by lra.
  rewrite (calculateTaxFrom_exhausted _ _ _ Hleft).
  unfold applySurcharge, taxAfterSlab, rateTax, baseTax. simpl.
  rewrite Ht1, Ht2, Hr1. field.
Qed.

(** ** Section 80D *)

(** C3, counterexample.  At self 30000, parents 40000 and senior parents the
    Section 80D deduction of the taxable-income path is not 75000. *)
Lemma section80DDeduction_example_not_75000 :
  ~ section80DDeduction example80D == 75000.
Proof.
  vm_compute. intro H. discriminate H.
Qed.

(** C3, as amended.  The Section 80D deduction is the raw sum of the two
    premiums capped by the sum of the two limits,
    min(25000 + (senior ? 50000 : 25000), self + parents); no premium is
    capped on its own.  At self 30000, parents 40000 and senior parents it
    is 70000, and this is the amount the taxable income loses: on a gross
    income of 1000000 with no other deduction the old-regime taxable income
    is 1000000 - 50000 - 70000 = 880000. *)
Theorem section80DDeduction_caps_the_sum :
  (forall d : Deductions,
      section80DDeduction d
      == Qmin (25000 + (if parentsSenior (section80D d)
                        then 50000 else 25000))
              (self (section80D d) + parents (section80D d)))
  /\ section80DDeduction example80D == 70000
  /\ oldRegimeTaxableIncome initialSalaryDetails example80D 1000000
     == 880000.
Proof.
  split; [ | split ].
  - intro d. reflexivity.
  - vm_compute. reflexivity.
  - vm_compute. reflexivity.
Qed.

(** C4, counterexample.  No deductions make the Section 80D term of the
    "Total Deductions" summary differ from the Section 80D deduction of the
    taxable-income path. *)
Lemma display80D_never_differs :
  ~ exists d : Deductions, ~ display80D d == section80DDeduction d.
Proof.
  intros [d Hd]. apply Hd.
  unfold display80D, section80DDeduction, total80DLimit, parentsLimit,
    selfAndFamilyLimit.
  rewrite Q.min_comm.
  destruct (parentsSenior (section80D d)); reflexivity.
Qed.

(** C4, as amended.  For all deductions the Section 80D term of the summary,
    min(self + parents, senior ? 75000 : 50000), equals the Section 80D
    deduction of the taxable-income path,
    min(25000 + (senior ? 50000 : 25000), self + parents): the two formulas
    are one minimum with its arguments swapped and the limit added up. *)
Theorem display80D_eq_section80DDeduction (d : Deductions) :
  display80D d == section80DDeduction d.
Proof.
  unfold display80D, section80DDeduction, total80DLimit, parentsLimit,
    selfAndFamilyLimit.
  rewrite Q.min_comm.
  destruct (parentsSenior (section80D d)); reflexivity.
Qed.

(** Where the summary and the taxable-income path do part: the Section 80C
    term of the summary is min(section80C, 150000) and leaves the home-loan
    principal out.  With a principal of 100000 alone the summary shows
    50000 of deductions while the taxable income of 1000000 drops by
    150000. *)
Example displayTotalDeductions_omits_principal :
  displayTotalDeductions initialSalaryDetails examplePrincipalOnly == 50000
  /\ oldRegimeTaxableIncome initialSalaryDetails examplePrincipalOnly 1000000
     == 850000.
Proof.
  split; vm_compute; reflexivity.
Qed.

(** ** The surcharge of a slab *)

(** C5.  When a slab carries a surcharge percentage [sc] (present and not
    zero) and income remains, the surcharge is [sc] percent of the running
    total that already holds this slab's own tax: the total of the earlier
    slabs, plus the fixed amount, plus the rate tax of this slab.
    - When the slab is the last one, the loop returns that cumulative total
      plus the surcharge on it.
    - When slabs follow, they start from the cumulative total with the
      surcharge already added.
    - In particular, when the next slab is unbounded and income is left for
      it, the loop returns the next slab's own surcharge step applied to
      the surcharged total plus the next slab's fixed amount and rate
      tax. *)
Theorem surcharge_on_cumulative_total
        (s : TaxSlab) (rest : list TaxSlab) (sc totalTax r : Q) :
  surcharge s = Some sc ->
  ~ sc == 0 ->
  0 < r ->
  calculateTaxFrom [ s ] totalTax r
  = (totalTax + (baseTax s + (taxableAmount s r * rate s) / 100))
    + ((totalTax + (baseTax s + (taxableAmount s r * rate s) / 100)) * sc)
      / 100
  /\ calculateTaxFrom (s :: rest) totalTax r
     = calculateTaxFrom rest
         ((totalTax + (baseTax s + (taxableAmount s r * rate s) / 100))
          + ((totalTax + (baseTax s + (taxableAmount s r * rate s) / 100))
             * sc) / 100)
         (r - taxableAmount s r)
  /\ (forall next : TaxSlab,
         max next = Infinity ->
         0 < r - taxableAmount s r ->
         calculateTaxFrom (s :: next :: rest) totalTax r
         = applySurcharge next
             (((totalTax + (baseTax s + (taxableAmount s r * rate s) / 100))
               + ((totalTax
                   + (baseTax s + (taxableAmount s r * rate s) / 100))
                  * sc) / 100)
              + (baseTax next
                 + ((r - taxableAmount s r) * rate next) / 100))).
Proof.
  intros Hsc Hnz Hr.
  assert (Hstep : forall tail : list TaxSlab,
             calculateTaxFrom (s :: tail) totalTax r
             = calculateTaxFrom tail
                 ((totalTax
                   + (baseTax s + (taxableAmount s r * rate s) / 100))
                  + ((totalTax
                      + (baseTax s + (taxableAmount s r * rate s) / 100))
                     * sc) / 100)
                 (r - taxableAmount s r)).
  { intro tail.
    rewrite (calculateTaxFrom_step s tail totalTax r Hr).
    unfold applySurcharge. rewrite Hsc.
    unfold truthy. destruct (Qeq_bool sc 0) eqn:E.
    - apply Qeq_bool_iff in E. contradiction.
    - reflexivity. }
  split; [ | split ].
  - rewrite (Hstep []). reflexivity.
  - apply Hstep.
  - intros next Hmax Hleft.
    rewrite (Hstep (next :: rest)).
    rewrite (calculateTaxFrom_step next rest _ _ Hleft).
    assert (Hta : taxableAmount next (r - taxableAmount s r)
                  = r - taxableAmount s r)
      by (unfold taxableAmount; rewrite Hmax; apply Qmin_same).
    unfold taxAfterSlab, rateTax. rewrite Hta.
    apply calculateTaxFrom_exhausted. lra.
Qed.

(** The surcharge slab reached with 10 of tax from the slab before and 100
    of income left: its own tax is 20, the surcharge is 10% of 30, and the
    loop returns 33, not the 32 a surcharge on the 20 alone would give. *)
Lemma surcharge_on_cumulative_total_witness :
  calculateTaxFrom [ surchargeSlab ] 10 100 == 33
  /\ ~ calculateTaxFrom [ surchargeSlab ] 10 100 == 32.
Proof.
  destruct (surcharge_on_cumulative_total surchargeSlab [] 10 10 100)
    as [Hlast _].
  - reflexivity.
  - vm_compute. intro H. discriminate H.
  - reflexivity.
  - rewrite Hlast. split.
    + vm_compute. reflexivity.
    + vm_compute. intro H. discriminate H.
Defined.

(** On income 200 the first slab gives 10 and the second 20; the surcharge
    is 10% of 30, not 10% of 20, so the tax is 33 and not 32. *)
Example surchargeTable_200 :
  calculateTax 200 surchargeTable == 33
  /\ ~ calculateTax 200 surchargeTable == 32.
Proof.
  split.
  - vm_compute. reflexivity.
  - vm_compute. intro H. discriminate H.
Qed.

(** ** The slab loop *)

(** C6.  [calculateTax] runs the loop over the slabs in list order from a
    zero total and the whole income, and both shipped tables list their
    slabs in ascending order.  In the loop, with running total [totalTax]
    and remaining income [r]:
    - once [r <= 0] the loop stops and the total is returned, whatever slabs
      are left;
    - on a slab with a finite upper bound [hi] and [0 < r], the amount taxed
      is min(r, hi - min + 1), and the loop goes on with the other slabs on
      the income left;
    - on a slab with upper bound [Infinity] and [0 < r], the amount taxed is
      all of [r], and nothing is left for later slabs. *)
Theorem calculateTax_slab_iteration
        (s : TaxSlab) (rest : list TaxSlab) (totalTax r : Q) :
  (forall (income : Q) (slabs : list TaxSlab),
      calculateTax income slabs = calculateTaxFrom slabs 0 income)
  /\ ascending NEW_REGIME_SLABS = true
  /\ ascending OLD_REGIME_SLABS = true
  /\ (r <= 0 -> calculateTaxFrom (s :: rest) totalTax r = totalTax)
  /\ (0 < r ->
      forall hi : Q,
        max s = Finite hi ->
        taxableAmount s r = Qmin r (hi - min s + 1)
        /\ calculateTaxFrom (s :: rest) totalTax r
           = calculateTaxFrom rest
               (applySurcharge s
                  (totalTax
                   + (baseTax s + (Qmin r (hi - min s + 1) * rate s) / 100)))
               (r - Qmin r (hi - min s + 1)))
  /\ (0 < r ->
      max s = Infinity ->
      taxableAmount s r = r
      /\ calculateTaxFrom (s :: rest) totalTax r
         = applySurcharge s (totalTax + (baseTax s + (r * rate s) / 100))).
Proof.
  split; [ reflexivity | ].
  split; [ reflexivity | ].
  split; [ reflexivity | ].
  split; [ apply calculateTaxFrom_exhausted | ].
  split.
  - intros Hr hi Hmax.
    assert (Hta : taxableAmount s r = Qmin r (hi - min s + 1))
      by (unfold taxableAmount; rewrite Hmax; reflexivity).
    split; [ exact Hta | ].
    rewrite (calculateTaxFrom_step s rest totalTax r Hr).
    unfold taxAfterSlab, rateTax. rewrite Hta. reflexivity.
  - intros Hr Hmax.
    assert (Hta : taxableAmount s r = r)
      by (unfold taxableAmount; rewrite Hmax; apply Qmin_same).
    split; [ exact Hta | ].
    rewrite (calculateTaxFrom_step s rest totalTax r Hr).
    unfold taxAfterSlab, rateTax. rewrite Hta.
    apply calculateTaxFrom_exhausted. lra.
Qed.

(** Income 400002 on the first two new-regime slabs: the first slab takes
    min(400002, 400001) and the loop goes on with the second. *)
Lemma calculateTax_slab_iteration_witness :
  calculateTaxFrom [ slab 0 (Finite 400000) 0; slab 400001 (Finite 800000) 5 ]
                   0 400002
  = calculateTaxFrom [ slab 400001 (Finite 800000) 5 ]
      (applySurcharge (slab 0 (Finite 400000) 0)
         (0 + (baseTax (slab 0 (Finite 400000) 0)
               + (Qmin 400002 (400000 - 0 + 1) * 0) / 100)))
      (400002 - Qmin 400002 (400000 - 0 + 1)).
Proof.
  apply (calculateTax_slab_iteration
           (slab 0 (Finite 400000) 0) [ slab 400001 (Finite 800000) 5 ]
           0 400002).
  - reflexivity.
  - reflexivity.
Defined.

(** ** The combined Section 80C deduction *)

(** The home-loan principal share and the Section 80C investments add up to
    the capped sum. *)
Lemma section80C_plus_principal_share (d : Deductions) :
  section80C d + hl_principal (calculateHomeLoanDeductions d)
  == Qmin (section80C d + principal (homeLoan d)) SECTION_80C_LIMIT.
Proof.
  unfold calculateHomeLoanDeductions, hl_principal.
  destruct (Q.min_spec (principal (homeLoan d))
                       (SECTION_80C_LIMIT - section80C d)) as [[H1 E1]|[H1 E1]];
    destruct (Q.min_spec (section80C d + principal (homeLoan d))
                         SECTION_80C_LIMIT) as [[H2 E2]|[H2 E2]];
    rewrite E1, E2; lra.
Qed.

(** C7.  For non-negative Section 80C investments and home-loan principal,
    the Section 80C term subtracted in the old-regime taxable income is
    min(section80C + homeLoanPrincipal, 150000), and the taxable income is
    the gross income less the standard deduction, this term and the other
    deductions, floored at zero. *)
Theorem combined80CDeduction_is_capped_sum
        (sd : SalaryDetails) (d : Deductions) (gross : Q) :
  0 <= section80C d ->
  0 <= principal (homeLoan d) ->
  combined80CDeduction d
  == Qmin (section80C d + principal (homeLoan d)) 150000
  /\ oldRegimeTaxableIncome sd d gross
     == Qmax 0
          (gross
           - 50000
           - Qmin (section80C d + principal (homeLoan d)) 150000
           - section80DDeduction d
           - Qmin (section80CCD d) SECTION_80CCD_LIMIT
           - Qmin (section80TTA d) SECTION_80TTA_LIMIT
           - Qmin (section80G d) SECTION_80G_LIMIT
           - calculateHRA sd
           - nps d
           - educationLoan d
           - Qmin (interest (homeLoan d)) 200000).
Proof.
  intros _ _.
  assert (Hc : combined80CDeduction d
               == Qmin (section80C d + principal (homeLoan d)) 150000).
  { unfold combined80CDeduction.
    rewrite section80C_plus_principal_share.
    unfold SECTION_80C_LIMIT.
    apply Q.min_l. apply Q.le_min_r. }
  split; [ exact Hc | ].
  unfold oldRegimeTaxableIncome, OLD_REGIME_STANDARD_DEDUCTION.
  rewrite Hc. reflexivity.
Qed.

(** Section 80C investments 100000 and principal 100000: the term is 150000,
    not 200000, and a gross income of 1000000 leaves 800000 taxable. *)
Lemma combined80CDeduction_is_capped_sum_witness :
  combined80CDeduction example80C == 150000
  /\ ~ combined80CDeduction example80C == 200000
  /\ oldRegimeTaxableIncome initialSalaryDetails example80C 1000000
     == 800000.
Proof.
  destruct (combined80CDeduction_is_capped_sum
              initialSalaryDetails example80C 1000000) as [Hc Ht].
  - vm_compute. intro H. discriminate H.
  - vm_compute. intro H. discriminate H.
  - split; [ | split ].
    + rewrite Hc. vm_compute. reflexivity.
    + rewrite Hc. vm_compute. intro H. discriminate H.
    + rewrite Ht. vm_compute. reflexivity.
Defined.

(** ** The HRA exemption *)

(** C8.  For non-negative basic salary, HRA received and rent paid, the HRA
    exemption is the minimum of the three candidates: HRA received, 50% of
    basic (metro) or 40% (non-metro), and max(0, rent - 10% of basic).  It
    is below each candidate, equal to one of them, and non-negative. *)
Theorem calculateHRA_least_of_three (sd : SalaryDetails) :
  0 <= basic sd ->
  0 <= hraReceived sd ->
  0 <= rentPaid sd ->
  calculateHRA sd
  == Qmin (Qmin (hraReceived sd)
                ((if metroCity sd then 1 # 2 else 2 # 5) * basic sd))
          (Qmax 0 (rentPaid sd - (1 # 10) * basic sd))
  /\ calculateHRA sd <= hraReceived sd
  /\ calculateHRA sd <= (if metroCity sd then 1 # 2 else 2 # 5) * basic sd
  /\ calculateHRA sd <= Qmax 0 (rentPaid sd - (1 # 10) * basic sd)
  /\ (calculateHRA sd == hraReceived sd
      \/ calculateHRA sd
         == (if metroCity sd then 1 # 2 else 2 # 5) * basic sd
      \/ calculateHRA sd == Qmax 0 (rentPaid sd - (1 # 10) * basic sd))
  /\ 0 <= calculateHRA sd.
Proof.
  intros Hb Hh Hr.
  unfold calculateHRA, hraRule1, hraRule2, hraRule3.
  set (c1 := hraReceived sd).
  set (c2 := (if metroCity sd then 1 # 2 else 2 # 5) * basic sd).
  set (c3 := Qmax 0 (rentPaid sd - (1 # 10) * basic sd)).
  assert (H2 : 0 <= c2)
    by (unfold c2; destruct (metroCity sd); lra).
  assert (H3 : 0 <= c3) by (unfold c3; apply Q.le_max_l).
  fold c1 in Hh.
  destruct (Q.min_spec c1 c2) as [[L12 E12]|[L12 E12]];
    destruct (Q.min_spec (Qmin c1 c2) c3) as [[L3 E3]|[L3 E3]];
    rewrite E3; rewrite ?E12 in *;
    repeat split; try lra; try reflexivity; auto.
Qed.

(** Basic 50000, HRA received 25000, rent 20000, metro: the candidates are
    25000, 25000 and 15000, and the exemption is 15000. *)
Lemma calculateHRA_least_of_three_witness :
  calculateHRA exampleSalary == 15000 /\ 0 <= calculateHRA exampleSalary.
Proof.
  destruct (calculateHRA_least_of_three exampleSalary) as [He [_ [_ [_ [_ Hn]]]]].
  - vm_compute. intro H. discriminate H.
  - vm_compute. intro H. discriminate H.
  - vm_compute. intro H. discriminate H.
  - split; [ | exact Hn ].
    rewrite He. vm_compute. reflexivity.
Defined.

(** ** The recommended regime *)

Lemma recommendedRegime_spec (newTax oldTax : Q) :
  (recommendedRegime newTax oldTax = NewRegime <-> newTax < oldTax)
  /\ (recommendedRegime newTax oldTax = OldRegime <-> oldTax <= newTax).
Proof.
  unfold recommendedRegime.
  destruct (Qltb newTax oldTax) eqn:E.
  - apply Qltb_lt in E.
    split; split; intro H;
      [ exact E | reflexivity | discriminate H | lra ].
  - assert (Hge : oldTax <= newTax).
    { apply Qnot_lt_le. intro Hlt. apply Qltb_lt in Hlt. congruence. }
    split; split; intro H;
      [ discriminate H | lra | exact Hge | reflexivity ].
Qed.

(** C9.  The recommendation shown for a state is the new regime exactly
    when its new-regime tax is strictly lower than its old-regime tax; on
    equal taxes it is the old regime. *)
Theorem recommended_new_iff_strictly_lower (st : State) :
  (recommended st = NewRegime <-> newRegimeTax st < oldRegimeTax st)
  /\ (newRegimeTax st == oldRegimeTax st -> recommended st = OldRegime).
Proof.
  unfold recommended.
  destruct (recommendedRegime_spec (newRegimeTax st) (oldRegimeTax st))
    as [Hnew Hold].
  split; [ exact Hnew | ].
  intro Heq. apply Hold. lra.
Qed.

(** Income 1200000 with no deductions: new-regime tax 59999.90, old-regime
    tax 72499.85, recommendation new; in the initial state both taxes are 0
    and the recommendation is old. *)
Lemma recommended_new_iff_strictly_lower_witness :
  recommended (handleIncomeChange initialState (Parsed 1200000)) = NewRegime
  /\ recommended initialState = OldRegime.
Proof.
  split.
  - apply (recommended_new_iff_strictly_lower
             (handleIncomeChange initialState (Parsed 1200000))).
    reflexivity.
  - apply (recommended_new_iff_strictly_lower initialState).
    reflexivity.
Defined.

(** ** The home-loan principal share *)

(** Above the Section 80C limit the principal share is negative for every
    non-negative principal. *)
Lemma principal_share_negative (d : Deductions) :
  SECTION_80C_LIMIT < section80C d ->
  0 <= principal (homeLoan d) ->
  hl_principal (calculateHomeLoanDeductions d) < 0.
Proof.
  intros Hs Hp.
  unfold calculateHomeLoanDeductions, hl_principal.
  destruct (Q.min_spec (principal (homeLoan d))
                       (SECTION_80C_LIMIT - section80C d)) as [[H E]|[H E]];
    rewrite E; lra.
Qed.

(** C10.  Some deductions with every amount non-negative, Section 80C
    investments above 150000 and a positive home-loan principal give a
    strictly negative principal deduction
    min(homeLoanPrincipal, 150000 - section80C) in the home-loan
    breakdown. *)
Theorem principal_deduction_can_be_negative :
  exists d : Deductions,
    0 <= section80C d
    /\ 0 <= self (section80D d) /\ 0 <= parents (section80D d)
    /\ 0 <= section80CCD d /\ 0 <= section80TTA d /\ 0 <= section80G d
    /\ 0 <= hra d /\ 0 <= nps d /\ 0 <= educationLoan d
    /\ 0 <= principal (homeLoan d) /\ 0 <= interest (homeLoan d)
    /\ 150000 < section80C d
    /\ 0 < principal (homeLoan d)
    /\ hl_principal (calculateHomeLoanDeductions d)
       = Qmin (principal (homeLoan d)) (150000 - section80C d)
    /\ hl_principal (calculateHomeLoanDeductions d) < 0.
Proof.
  exists exampleOver80C.
  repeat split; try (vm_compute; intro H; discriminate H).
Qed.

(** * Further properties of the engine *)

(** ** Arithmetic of one slab *)

Lemma Qdiv_100 (a : Q) : a / 100 == a * (1 # 100).
Proof.
  unfold Qdiv. reflexivity.
Qed.

Lemma wellFormedSlab_spec (s : TaxSlab) :
  wellFormedSlab s = true ->
  0 <= rate s
  /\ 0 <= baseTax s
  /\ (forall sc : Q, surcharge s = Some sc -> 0 <= sc)
  /\ (forall hi : Q, max s = Finite hi -> 0 <= hi - min s + 1).
Proof.
  unfold wellFormedSlab. intro H.
  apply andb_prop in H. destruct H as [H Hw].
  apply andb_prop in H. destruct H as [H Hs].
  apply andb_prop in H. destruct H as [Hr Hb].
  apply Qle_bool_iff in Hr. apply Qle_bool_iff in Hb.
  repeat split; auto.
  - intros sc E. rewrite E in Hs. apply Qle_bool_iff in Hs. exact Hs.
  - intros hi E. rewrite E in Hw. apply Qle_bool_iff in Hw. exact Hw.
Qed.

Lemma taxableAmount_bounds (s : TaxSlab) (r : Q) :
  wellFormedSlab s = true ->
  0 <= r ->
  0 <= taxableAmount s r /\ taxableAmount s r <= r.
Proof.
  intros Hwf Hr.
  destruct (wellFormedSlab_spec s Hwf) as [_ [_ [_ Hw]]].
  unfold taxableAmount. destruct (max s) as [hi | ].
  - specialize (Hw hi eq_refl).
    destruct (Q.min_spec r (hi - min s + 1)) as [[H E]|[H E]];
      rewrite E; split; lra.
  - rewrite Qmin_same. split; lra.
Qed.

Lemma taxableAmount_mono (s : TaxSlab) (r r' : Q) :
  r <= r' ->
  taxableAmount s r <= taxableAmount s r'
  /\ r - taxableAmount s r <= r' - taxableAmount s r'.
Proof.
  intro Hrr. unfold taxableAmount. destruct (max s) as [hi | ].
  - destruct (Q.min_spec r (hi - min s + 1)) as [[H E]|[H E]];
      destruct (Q.min_spec r' (hi - min s + 1)) as [[H' E']|[H' E']];
      rewrite E, E'; split; lra.
  - rewrite !Qmin_same. split; lra.
Qed.

Lemma taxAfterSlab_ge (s : TaxSlab) (t r : Q) :
  wellFormedSlab s = true -> 0 <= r -> t <= taxAfterSlab s t r.
Proof.
  intros Hwf Hr.
  destruct (taxableAmount_bounds s r Hwf Hr) as [Hta _].
  destruct (wellFormedSlab_spec s Hwf) as [Hrate [Hbase _]].
  unfold taxAfterSlab, rateTax. rewrite Qdiv_100.
  assert (0 <= taxableAmount s r * rate s)
    by (apply Qmult_le_0_compat; assumption).
  lra.
Qed.

Lemma taxAfterSlab_mono (s : TaxSlab) (t t' r r' : Q) :
  wellFormedSlab s = true ->
  t <= t' -> r <= r' ->
  taxAfterSlab s t r <= taxAfterSlab s t' r'.
Proof.
  intros Hwf Ht Hr.
  destruct (taxableAmount_mono s r r' Hr) as [Hta _].
  destruct (wellFormedSlab_spec s Hwf) as [Hrate _].
  unfold taxAfterSlab, rateTax. rewrite !Qdiv_100.
  assert (taxableAmount s r * rate s <= taxableAmount s r' * rate s)
    by (apply Qmult_le_compat_r; assumption).
  lra.
Qed.

Lemma applySurcharge_mono (s : TaxSlab) (t t' : Q) :
  wellFormedSlab s = true ->
  t <= t' -> applySurcharge s t <= applySurcharge s t'.
Proof.
  intros Hwf Ht.
  destruct (wellFormedSlab_spec s Hwf) as [_ [_ [Hsc _]]].
  unfold applySurcharge. destruct (surcharge s) as [sc | ]; [ | exact Ht ].
  specialize (Hsc sc eq_refl).
  destruct (truthy sc); [ | exact Ht ].
  rewrite !Qdiv_100.
  assert (t * sc <= t' * sc) by (apply Qmult_le_compat_r; assumption).
  lra.
Qed.

Lemma applySurcharge_ge (s : TaxSlab) (t : Q) :
  wellFormedSlab s = true -> 0 <= t -> t <= applySurcharge s t.
Proof.
  intros Hwf Ht.
  destruct (wellFormedSlab_spec s Hwf) as [_ [_ [Hsc _]]].
  unfold applySurcharge. destruct (surcharge s) as [sc | ]; [ | lra ].
  specialize (Hsc sc eq_refl).
  destruct (truthy sc); [ | lra ].
  rewrite Qdiv_100.
  assert (0 <= t * sc) by (apply Qmult_le_0_compat; assumption).
  lra.
Qed.

(** ** The loop on well-formed tables *)

(** The loop never lowers the running total. *)
Lemma calculateTaxFrom_ge_total (slabs : list TaxSlab) :
  forallb wellFormedSlab slabs = true ->
  forall t r : Q, 0 <= t -> t <= calculateTaxFrom slabs t r.
Proof.
  induction slabs as [ | s rest IH ]; intros Hwf t r Ht.
  - simpl. lra.
  - simpl in Hwf. apply andb_prop in Hwf. destruct Hwf as [Hs Hrest].
    destruct (Qlt_le_dec 0 r) as [Hpos | Hneg].
    + rewrite (calculateTaxFrom_step s rest t r Hpos).
      assert (H1 : t <= taxAfterSlab s t r)
        by (apply taxAfterSlab_ge; [ exact Hs | lra ]).
      assert (H2 : taxAfterSlab s t r <= applySurcharge s (taxAfterSlab s t r))
        by (apply applySurcharge_ge; [ exact Hs | lra ]).
      assert (H3 := IH Hrest (applySurcharge s (taxAfterSlab s t r))
                       (r - taxableAmount s r)).
      lra.
    + rewrite (calculateTaxFrom_exhausted (s :: rest) t r Hneg). lra.
Qed.

(** More income and a higher running total give a higher result. *)
Lemma calculateTaxFrom_mono (slabs : list TaxSlab) :
  forallb wellFormedSlab slabs = true ->
  forall t t' r r' : Q,
    0 <= t -> t <= t' -> r <= r' ->
    calculateTaxFrom slabs t r <= calculateTaxFrom slabs t' r'.
Proof.
  induction slabs as [ | s rest IH ]; intros Hwf t t' r r' Ht Htt Hrr.
  - simpl. exact Htt.
  - assert (Hall := Hwf).
    simpl in Hwf. apply andb_prop in Hwf. destruct Hwf as [Hs Hrest].
    destruct (Qlt_le_dec 0 r) as [Hpos | Hneg].
    + assert (Hpos' : 0 < r') by lra.
      rewrite (calculateTaxFrom_step s rest t r Hpos).
      rewrite (calculateTaxFrom_step s rest t' r' Hpos').
      destruct (taxableAmount_mono s r r' Hrr) as [_ Hleft].
      apply (IH Hrest).
      * assert (t <= taxAfterSlab s t r)
          by (apply taxAfterSlab_ge; [ exact Hs | lra ]).
        assert (taxAfterSlab s t r <= applySurcharge s (taxAfterSlab s t r))
          by (apply applySurcharge_ge; [ exact Hs | lra ]).
        lra.
      * apply applySurcharge_mono; [ exact Hs | ].
        apply taxAfterSlab_mono; assumption.
      * exact Hleft.
    + rewrite (calculateTaxFrom_exhausted (s :: rest) t r Hneg).
      assert (t' <= calculateTaxFrom (s :: rest) t' r')
        by (apply calculateTaxFrom_ge_total; [ exact Hall | lra ]).
      lra.
Qed.

Lemma plainSlab_spec (top : Q) (s : TaxSlab) :
  plainSlab top s = true ->
  wellFormedSlab s = true
  /\ rate s <= top /\ fixedAmount s = None /\ surcharge s = None.
Proof.
  unfold plainSlab. intro H.
  apply andb_prop in H. destruct H as [H Hs].
  apply andb_prop in H. destruct H as [H Hf].
  apply andb_prop in H. destruct H as [Hwf Hr].
  apply Qle_bool_iff in Hr.
  destruct (fixedAmount s); [ discriminate Hf | ].
  destruct (surcharge s); [ discriminate Hs | ].
  repeat split; assumption.
Qed.

(** On a table without fixed amounts and surcharges the loop adds at most
    the top rate on the income it is given. *)
Lemma calculateTaxFrom_le_top (top : Q) (slabs : list TaxSlab) :
  forallb (plainSlab top) slabs = true ->
  0 <= top ->
  forall t r : Q,
    0 <= r -> calculateTaxFrom slabs t r <= t + (r * top) / 100.
Proof.
  intros Hall Htop.
  induction slabs as [ | s rest IH ]; intros t r Hr.
  - simpl. rewrite Qdiv_100.
    assert (0 <= r * top) by (apply Qmult_le_0_compat; assumption).
    lra.
  - simpl in Hall. apply andb_prop in Hall. destruct Hall as [Hs Hrest].
    destruct (plainSlab_spec top s Hs) as [Hwf [Hrate [Hfix Hsur]]].
    destruct (Qle_lt_or_eq 0 r Hr) as [Hpos | Hzero].
    + rewrite (calculateTaxFrom_step s rest t r Hpos).
      destruct (taxableAmount_bounds s r Hwf Hr) as [Hta0 Htar].
      assert (Hleft : 0 <= r - taxableAmount s r) by lra.
      assert (HT : applySurcharge s (taxAfterSlab s t r)
                   <= t + (taxableAmount s r * top) / 100).
      { unfold applySurcharge. rewrite Hsur.
        unfold taxAfterSlab, rateTax, baseTax. rewrite Hfix.
        rewrite !Qdiv_100.
        assert (rate s * taxableAmount s r <= top * taxableAmount s r)
          by (apply Qmult_le_compat_r; assumption).
        lra. }
      set (T := applySurcharge s (taxAfterSlab s t r)) in *.
      assert (H := IH Hrest T (r - taxableAmount s r) Hleft).
      rewrite Qdiv_100 in H. rewrite Qdiv_100 in HT. rewrite Qdiv_100.
      lra.
    + assert (Hneg : r <= 0) by lra.
      rewrite (calculateTaxFrom_exhausted (s :: rest) t r Hneg).
      rewrite Qdiv_100.
      assert (0 <= r * top) by (apply Qmult_le_0_compat; assumption).
      lra.
Qed.

(** On a table without fixed amounts and surcharges, income added on top
    costs at most the top rate. *)
Lemma calculateTaxFrom_marginal (top : Q) (slabs : list TaxSlab) :
  forallb (plainSlab top) slabs = true ->
  0 <= top ->
  forall t t' r r' : Q,
    r <= r' ->
    calculateTaxFrom slabs t' r' - calculateTaxFrom slabs t r
    <= (t' - t) + ((r' - r) * top) / 100.
Proof.
  intros Hall Htop.
  induction slabs as [ | s rest IH ]; intros t t' r r' Hrr.
  - simpl. rewrite Qdiv_100.
    assert (0 <= (r' - r) * top)
      by (apply Qmult_le_0_compat; [ lra | assumption ]).
    lra.
  - assert (Hall' := Hall).
    simpl in Hall. apply andb_prop in Hall. destruct Hall as [Hs Hrest].
    destruct (plainSlab_spec top s Hs) as [Hwf [Hrate [Hfix Hsur]]].
    destruct (wellFormedSlab_spec s Hwf) as [Hrate0 _].
    destruct (Qlt_le_dec 0 r) as [Hpos | Hneg].
    + assert (Hpos' : 0 < r') by lra.
      rewrite (calculateTaxFrom_step s rest t r Hpos).
      rewrite (calculateTaxFrom_step s rest t' r' Hpos').
      destruct (taxableAmount_mono s r r' Hrr) as [Hta Hleft].
      assert (HT : applySurcharge s (taxAfterSlab s t' r')
                   - applySurcharge s (taxAfterSlab s t r)
                   <= (t' - t)
                      + ((taxableAmount s r' - taxableAmount s r) * top)
                        / 100).
      { unfold applySurcharge. rewrite Hsur.
        unfold taxAfterSlab, rateTax, baseTax. rewrite Hfix.
        rewrite !Qdiv_100.
        assert (0 <= (taxableAmount s r' - taxableAmount s r)
                     * (top - rate s))
          by (apply Qmult_le_0_compat; lra).
        lra. }
      set (T := applySurcharge s (taxAfterSlab s t r)) in *.
      set (T' := applySurcharge s (taxAfterSlab s t' r')) in *.
      assert (H := IH Hrest T T' (r - taxableAmount s r)
                      (r' - taxableAmount s r') Hleft).
      rewrite Qdiv_100 in H. rewrite Qdiv_100 in HT. rewrite Qdiv_100.
      lra.
    + rewrite (calculateTaxFrom_exhausted (s :: rest) t r Hneg).
      destruct (Qlt_le_dec 0 r') as [Hpos' | Hneg'].
      * assert (H := calculateTaxFrom_le_top top (s :: rest) Hall' Htop
                       t' r' (Qlt_le_weak _ _ Hpos')).
        rewrite Qdiv_100 in H. rewrite Qdiv_100.
        assert (0 <= (0 - r) * top)
          by (apply Qmult_le_0_compat; [ lra | assumption ]).
        lra.
      * rewrite (calculateTaxFrom_exhausted (s :: rest) t' r' Hneg').
        rewrite Qdiv_100.
        assert (0 <= (r' - r) * top)
          by (apply Qmult_le_0_compat; [ lra | assumption ]).
        lra.
Qed.

(** The first two bands of a table whose first slab is rated 0. *)
Lemma calculateTax_first_band
      (s1 : TaxSlab) (rest : list TaxSlab) (hi income : Q) :
  max s1 = Finite hi ->
  rate s1 == 0 ->
  fixedAmount s1 = None ->
  surcharge s1 = None ->
  income <= hi - min s1 + 1 ->
  calculateTax income (s1 :: rest) == 0.
Proof.
  intros Hmax Hrate Hfix Hsur Hi. unfold calculateTax.
  destruct (Qlt_le_dec 0 income) as [Hpos | Hneg].
  - rewrite (calculateTaxFrom_step s1 rest 0 income Hpos).
    assert (Ht : taxableAmount s1 income == income).
    { unfold taxableAmount. rewrite Hmax. apply Q.min_l. exact Hi. }
    assert (Hleft : income - taxableAmount s1 income <= 0) by lra.
    rewrite (calculateTaxFrom_exhausted _ _ _ Hleft).
    unfold applySurcharge. rewrite Hsur.
    unfold taxAfterSlab, rateTax, baseTax. rewrite Hfix.
    rewrite Hrate. field.
  - rewrite (calculateTaxFrom_exhausted _ _ _ Hneg). reflexivity.
Qed.

Lemma calculateTax_second_band
      (s1 s2 : TaxSlab) (rest : list TaxSlab) (hi1 hi2 income : Q) :
  max s1 = Finite hi1 ->
  max s2 = Finite hi2 ->
  rate s1 == 0 ->
  fixedAmount s1 = None -> surcharge s1 = None ->
  fixedAmount s2 = None -> surcharge s2 = None ->
  0 <= hi1 - min s1 + 1 ->
  hi1 - min s1 + 1 < income ->
  income <= (hi1 - min s1 + 1) + (hi2 - min s2 + 1) ->
  calculateTax income (s1 :: s2 :: rest)
  == ((income - (hi1 - min s1 + 1)) * rate s2) / 100.
Proof.
  intros Hmax1 Hmax2 Hrate Hfix1 Hsur1 Hfix2 Hsur2 Hw Hlo Hhi.
  unfold calculateTax.
  assert (Ht1 : taxableAmount s1 income == hi1 - min s1 + 1).
  { unfold taxableAmount. rewrite Hmax1. apply Q.min_r. lra. }
  assert (Hpos : 0 < income) by lra.
  rewrite (calculateTaxFrom_step s1 (s2 :: rest) 0 income Hpos).
  set (r1 := income - taxableAmount s1 income).
  assert (Hr1 : r1 == income - (hi1 - min s1 + 1))
    by (unfold r1; rewrite Ht1; reflexivity).
  assert (Ht2 : taxableAmount s2 r1 == r1).
  { unfold taxableAmount. rewrite Hmax2. apply Q.min_l. lra. }
  assert (Hpos1 : 0 < r1) by lra.
  rewrite (calculateTaxFrom_step s2 rest _ r1 Hpos1).
  assert (Hleft : r1 - taxableAmount s2 r1 <= 0) by lra.
  rewrite (calculateTaxFrom_exhausted _ _ _ Hleft).
  unfold applySurcharge. rewrite Hsur1, Hsur2.
  unfold taxAfterSlab, rateTax, baseTax. rewrite Hfix1, Hfix2.
  rewrite Ht1, Ht2, Hr1, Hrate. field.
Qed.

(** ** [calculateTax] on any well-formed table *)

(** X1.  On a table whose slabs have non-negative rates, fixed amounts,
    surcharges and widths, the slab tax is never negative, and it is 0 on
    an income that is zero or negative, whatever the table. *)
Theorem calculateTax_nonneg (income : Q) (slabs : list TaxSlab) :
  forallb wellFormedSlab slabs = true ->
  0 <= calculateTax income slabs
  /\ (income <= 0 -> calculateTax income slabs = 0).
Proof.
  intro Hwf. split.
  - unfold calculateTax. apply calculateTaxFrom_ge_total; [ exact Hwf | lra ].
  - intro Hneg. unfold calculateTax. apply calculateTaxFrom_exhausted.
    exact Hneg.
Qed.

Lemma calculateTax_nonneg_witness :
  0 <= calculateTax 1200000 OLD_REGIME_SLABS
  /\ calculateTax (-5000) OLD_REGIME_SLABS = 0.
Proof.
  destruct (calculateTax_nonneg 1200000 OLD_REGIME_SLABS) as [H _];
    [ reflexivity | ].
  destruct (calculateTax_nonneg (-5000) OLD_REGIME_SLABS) as [_ H0];
    [ reflexivity | ].
  split; [ exact H | apply H0 ].
  vm_compute. intro E. discriminate E.
Defined.

(** X2.  On such a table the slab tax does not go down when the income goes
    up. *)
Theorem calculateTax_monotone (income income' : Q) (slabs : list TaxSlab) :
  forallb wellFormedSlab slabs = true ->
  income <= income' ->
  calculateTax income slabs <= calculateTax income' slabs.
Proof.
  intros Hwf Hle. unfold calculateTax.
  apply calculateTaxFrom_mono; [ exact Hwf | lra | lra | exact Hle ].
Qed.

Lemma calculateTax_monotone_witness :
  calculateTax 799999 NEW_REGIME_SLABS <= calculateTax 800003 NEW_REGIME_SLABS.
Proof.
  apply (calculateTax_monotone 799999 800003 NEW_REGIME_SLABS).
  - reflexivity.
  - vm_compute. intro E. discriminate E.
Defined.

(** X3.  On a table without fixed amounts and surcharges whose rates lie
    between 0 and [top], the tax on a non-negative income is at most [top]
    percent of it. *)
Theorem calculateTax_at_most_top_rate
        (top income : Q) (slabs : list TaxSlab) :
  forallb (plainSlab top) slabs = true ->
  0 <= top ->
  0 <= income ->
  calculateTax income slabs <= (income * top) / 100.
Proof.
  intros Hplain Htop Hi. unfold calculateTax.
  assert (H := calculateTaxFrom_le_top top slabs Hplain Htop 0 income Hi).
  lra.
Qed.

Lemma calculateTax_at_most_top_rate_witness :
  calculateTax 5000000 NEW_REGIME_SLABS <= (5000000 * 30) / 100.
Proof.
  apply (calculateTax_at_most_top_rate 30 5000000 NEW_REGIME_SLABS).
  - reflexivity.
  - vm_compute. intro E. discriminate E.
  - vm_compute. intro E. discriminate E.
Defined.

(** X4.  On such a table, raising the income raises the tax by at most
    [top] percent of the raise. *)
Theorem calculateTax_marginal_rate
        (top income income' : Q) (slabs : list TaxSlab) :
  forallb (plainSlab top) slabs = true ->
  0 <= top ->
  income <= income' ->
  calculateTax income' slabs - calculateTax income slabs
  <= ((income' - income) * top) / 100.
Proof.
  intros Hplain Htop Hle. unfold calculateTax.
  assert (H := calculateTaxFrom_marginal top slabs Hplain Htop
                 0 0 income income' Hle).
  lra.
Qed.

Lemma calculateTax_marginal_rate_witness :
  calculateTax 2500000 OLD_REGIME_SLABS - calculateTax 900000 OLD_REGIME_SLABS
  <= ((2500000 - 900000) * 30) / 100.
Proof.
  apply (calculateTax_marginal_rate 30 900000 2500000 OLD_REGIME_SLABS).
  - reflexivity.
  - vm_compute. intro E. discriminate E.
  - vm_compute. intro E. discriminate E.
Defined.

(** ** The first two bands of the shipped tables *)

(** X5.  On the new-regime table the tax is 0 up to an income of 400001 and
    5% of the income above 400001 from there up to 800001; on the
    old-regime table it is 0 up to 300001 and 5% of the income above 300001
    from there up to 700001.  The second band starts one rupee above the
    [min] of its slab. *)
Theorem shipped_tables_first_two_bands (income : Q) :
  (income <= 400001 -> calculateTax income NEW_REGIME_SLABS == 0)
  /\ (400001 < income -> income <= 800001 ->
      calculateTax income NEW_REGIME_SLABS
      == ((income - 400001) * 5) / 100)
  /\ (income <= 300001 -> calculateTax income OLD_REGIME_SLABS == 0)
  /\ (300001 < income -> income <= 700001 ->
      calculateTax income OLD_REGIME_SLABS
      == ((income - 300001) * 5) / 100).
Proof.
  unfold NEW_REGIME_SLABS, OLD_REGIME_SLABS.
  split; [ | split; [ | split ] ].
  - intro Hi.
    apply (calculateTax_first_band _ _ 400000);
      try reflexivity; simpl; lra.
  - intros Hlo Hhi.
    rewrite (calculateTax_second_band _ _ _ 400000 800000);
      try reflexivity; simpl; lra.
  - intro Hi.
    apply (calculateTax_first_band _ _ 300000);
      try reflexivity; simpl; lra.
  - intros Hlo Hhi.
    rewrite (calculateTax_second_band _ _ _ 300000 700000);
      try reflexivity; simpl; lra.
Qed.

Lemma shipped_tables_first_two_bands_witness :
  calculateTax 400001 NEW_REGIME_SLABS == 0
  /\ calculateTax 500000 OLD_REGIME_SLABS == ((500000 - 300001) * 5) / 100.
Proof.
  destruct (shipped_tables_first_two_bands 400001) as [Hnew _].
  destruct (shipped_tables_first_two_bands 500000) as [_ [_ [_ Hold]]].
  split.
  - apply Hnew. vm_compute. intro E. discriminate E.
  - apply Hold.
    + reflexivity.
    + vm_compute. intro E. discriminate E.
Defined.

(** ** Bounds on the deductions *)

Lemma calculateHRA_nonneg (sd : SalaryDetails) :
  0 <= basic sd -> 0 <= hraReceived sd -> 0 <= calculateHRA sd.
Proof.
  intros Hb Hh.
  unfold calculateHRA, hraRule1, hraRule2, hraRule3.
  assert (H2 : 0 <= (if metroCity sd then 1 # 2 else 2 # 5) * basic sd)
    by (destruct (metroCity sd); lra).
  assert (H3 : 0 <= Qmax 0 (rentPaid sd - (1 # 10) * basic sd))
    by apply Q.le_max_l.
  apply Q.min_glb; [ apply Q.min_glb | ]; assumption.
Qed.

Lemma combined80CDeduction_bounds (d : Deductions) :
  combined80CDeduction d <= 150000
  /\ (0 <= section80C d -> 0 <= principal (homeLoan d) ->
      0 <= combined80CDeduction d).
Proof.
  unfold combined80CDeduction. split.
  - apply Q.le_min_r.
  - intros Hs Hp. rewrite section80C_plus_principal_share.
    unfold SECTION_80C_LIMIT.
    apply Q.min_glb; [ apply Q.min_glb | ]; lra.
Qed.

Lemma section80DDeduction_bounds (d : Deductions) :
  section80DDeduction d <= 75000
  /\ (0 <= self (section80D d) -> 0 <= parents (section80D d) ->
      0 <= section80DDeduction d).
Proof.
  unfold section80DDeduction, total80DLimit, parentsLimit,
    selfAndFamilyLimit.
  split.
  - eapply Qle_trans; [ apply Q.le_min_l | ].
    destruct (parentsSenior (section80D d)); lra.
  - intros Hs Hp. apply Q.min_glb; [ | lra ].
    destruct (parentsSenior (section80D d)); lra.
Qed.

Lemma oldRegimeTaxableIncome_le
      (sd : SalaryDetails) (d : Deductions) (gross : Q) :
  nonNegativeInputs sd d ->
  oldRegimeTaxableIncome sd d gross <= Qmax 0 (gross - 50000).
Proof.
  intros [Hb [Hh [Hr [Hc [Hs [Hp [Hccd [Htta [Hg [Hn [He [Hpr Hin]]]]]]]]]]]].
  destruct (combined80CDeduction_bounds d) as [_ H80C].
  specialize (H80C Hc Hpr).
  destruct (section80DDeduction_bounds d) as [_ H80D].
  specialize (H80D Hs Hp).
  assert (Hhra := calculateHRA_nonneg sd Hb Hh).
  assert (H1 : 0 <= Qmin (section80CCD d) SECTION_80CCD_LIMIT)
    by (apply Q.min_glb; [ exact Hccd | unfold SECTION_80CCD_LIMIT; lra ]).
  assert (H2 : 0 <= Qmin (section80TTA d) SECTION_80TTA_LIMIT)
    by (apply Q.min_glb; [ exact Htta | unfold SECTION_80TTA_LIMIT; lra ]).
  assert (H3 : 0 <= Qmin (section80G d) SECTION_80G_LIMIT)
    by (apply Q.min_glb; [ exact Hg | unfold SECTION_80G_LIMIT; lra ]).
  assert (H4 : 0 <= hl_interest (calculateHomeLoanDeductions d))
    by (unfold calculateHomeLoanDeductions, hl_interest;
        apply Q.min_glb; [ exact Hin | lra ]).
  unfold oldRegimeTaxableIncome, OLD_REGIME_STANDARD_DEDUCTION.
  apply Q.max_lub.
  - apply Q.le_max_l.
  - eapply Qle_trans; [ | apply Q.le_max_r ]. lra.
Qed.

Lemma oldRegimeTaxableIncome_no_deductions (gross : Q) :
  oldRegimeTaxableIncome initialSalaryDetails initialDeductions gross
  == Qmax 0 (gross - 50000).
Proof.
  assert (E1 : combined80CDeduction initialDeductions == 0)
    by (vm_compute; reflexivity).
  assert (E2 : section80DDeduction initialDeductions == 0)
    by (vm_compute; reflexivity).
  assert (E3 : calculateHRA initialSalaryDetails == 0)
    by (vm_compute; reflexivity).
  assert (E4 : hl_interest (calculateHomeLoanDeductions initialDeductions)
               == 0) by (vm_compute; reflexivity).
  assert (E5 : Qmin (section80CCD initialDeductions) SECTION_80CCD_LIMIT
               == 0) by (vm_compute; reflexivity).
  assert (E6 : Qmin (section80TTA initialDeductions) SECTION_80TTA_LIMIT
               == 0) by (vm_compute; reflexivity).
  assert (E7 : Qmin (section80G initialDeductions) SECTION_80G_LIMIT
               == 0) by (vm_compute; reflexivity).
  unfold oldRegimeTaxableIncome, OLD_REGIME_STANDARD_DEDUCTION.
  rewrite E1, E2, E3, E4, E5, E6, E7. simpl.
  apply Q.max_compat; [ reflexivity | lra ].
Qed.

Lemma forallb_wellFormedSlab_old : forallb wellFormedSlab OLD_REGIME_SLABS = true.
Proof.
  reflexivity.
Qed.

(** With non-negative inputs no old-regime tax is due up to a gross income
    of 350001. *)
Lemma calculateOldRegimeTax_zero_band
      (sd : SalaryDetails) (d : Deductions) (gross : Q) :
  nonNegativeInputs sd d ->
  gross <= 350001 ->
  calculateOldRegimeTax sd d gross == 0.
Proof.
  intros Hnn Hg. unfold calculateOldRegimeTax, OLD_REGIME_SLABS.
  apply (calculateTax_first_band _ _ 300000); try reflexivity.
  simpl.
  eapply Qle_trans; [ apply (oldRegimeTaxableIncome_le sd d gross Hnn) | ].
  apply Q.max_lub; lra.
Qed.

(** ** The old-regime tax *)

(** X6.  With non-negative salary details and deductions, the old-regime
    tax is never above the old-regime tax of the same income without any
    deduction, and never negative. *)
Theorem deductions_never_raise_old_regime_tax
        (sd : SalaryDetails) (d : Deductions) (gross : Q) :
  nonNegativeInputs sd d ->
  0 <= calculateOldRegimeTax sd d gross
  /\ calculateOldRegimeTax sd d gross
     <= calculateOldRegimeTax initialSalaryDetails initialDeductions gross.
Proof.
  intro Hnn. unfold calculateOldRegimeTax, calculateTax. split.
  - apply calculateTaxFrom_ge_total;
      [ exact forallb_wellFormedSlab_old | lra ].
  - apply calculateTaxFrom_mono;
      [ exact forallb_wellFormedSlab_old | lra | lra | ].
    rewrite oldRegimeTaxableIncome_no_deductions.
    apply oldRegimeTaxableIncome_le. exact Hnn.
Qed.

Lemma deductions_never_raise_old_regime_tax_witness :
  calculateOldRegimeTax exampleSalary example80C 1200000
  <= calculateOldRegimeTax initialSalaryDetails initialDeductions 1200000.
Proof.
  apply (deductions_never_raise_old_regime_tax
           exampleSalary example80C 1200000).
  repeat split; vm_compute; intro E; discriminate E.
Defined.

(** X7.  With non-negative salary details and deductions, the old-regime
    tax is 0 for every gross income up to 350001: the standard deduction of
    50000 and the first band of 300001. *)
Theorem calculateOldRegimeTax_zero_up_to_350001
        (sd : SalaryDetails) (d : Deductions) (gross : Q) :
  nonNegativeInputs sd d ->
  gross <= 350001 ->
  calculateOldRegimeTax sd d gross == 0.
Proof.
  apply calculateOldRegimeTax_zero_band.
Qed.

Lemma calculateOldRegimeTax_zero_up_to_350001_witness :
  calculateOldRegimeTax exampleSalary example80D 350001 == 0.
Proof.
  apply (calculateOldRegimeTax_zero_up_to_350001
           exampleSalary example80D 350001).
  - repeat split; vm_compute; intro E; discriminate E.
  - vm_compute. intro E. discriminate E.
Defined.

(** X8.  Whatever is entered, the capped deductions take at most their caps
    off the income: the old-regime taxable income is at least the gross
    income less 635000 (standard deduction 50000, Section 80C 150000, 80D
    75000, 80CCD 50000, 80TTA 10000, 80G 100000, home-loan interest 200000),
    less the HRA exemption, the NPS and the education-loan amounts; and it
    is never negative. *)
Theorem capped_deductions_bounded
        (sd : SalaryDetails) (d : Deductions) (gross : Q) :
  0 <= oldRegimeTaxableIncome sd d gross
  /\ gross - 635000 - calculateHRA sd - nps d - educationLoan d
     <= oldRegimeTaxableIncome sd d gross.
Proof.
  split; [ apply Q.le_max_l | ].
  destruct (combined80CDeduction_bounds d) as [H80C _].
  destruct (section80DDeduction_bounds d) as [H80D _].
  assert (H1 : Qmin (section80CCD d) SECTION_80CCD_LIMIT <= 50000)
    by apply Q.le_min_r.
  assert (H2 : Qmin (section80TTA d) SECTION_80TTA_LIMIT <= 10000)
    by apply Q.le_min_r.
  assert (H3 : Qmin (section80G d) SECTION_80G_LIMIT <= 100000)
    by apply Q.le_min_r.
  assert (H4 : hl_interest (calculateHomeLoanDeductions d) <= 200000)
    by (unfold calculateHomeLoanDeductions, hl_interest; apply Q.le_min_r).
  unfold oldRegimeTaxableIncome, OLD_REGIME_STANDARD_DEDUCTION.
  eapply Qle_trans; [ | apply Q.le_max_r ]. lra.
Qed.

(** ** The home-loan split *)

(** X9.  For a non-negative home-loan principal, the principal deduction of
    the home-loan breakdown is non-negative exactly when the Section 80C
    investments do not exceed 150000; it never exceeds the principal, and
    the interest deduction never exceeds 200000. *)
Theorem principal_deduction_sign (d : Deductions) :
  0 <= principal (homeLoan d) ->
  (0 <= hl_principal (calculateHomeLoanDeductions d)
   <-> section80C d <= 150000)
  /\ hl_principal (calculateHomeLoanDeductions d) <= principal (homeLoan d)
  /\ hl_interest (calculateHomeLoanDeductions d) <= 200000
  /\ hl_total (calculateHomeLoanDeductions d)
     == hl_principal (calculateHomeLoanDeductions d)
        + hl_interest (calculateHomeLoanDeductions d).
Proof.
  intro Hp.
  unfold calculateHomeLoanDeductions, hl_principal, hl_interest, hl_total,
    SECTION_80C_LIMIT.
  split; [ | split; [ | split ] ].
  - destruct (Q.min_spec (principal (homeLoan d)) (150000 - section80C d))
      as [[H E]|[H E]]; rewrite E; split; intro; lra.
  - apply Q.le_min_l.
  - apply Q.le_min_r.
  - reflexivity.
Qed.

Lemma principal_deduction_sign_witness :
  0 <= hl_principal (calculateHomeLoanDeductions example80C)
  /\ ~ 0 <= hl_principal (calculateHomeLoanDeductions exampleOver80C).
Proof.
  destruct (principal_deduction_sign example80C) as [[_ Hin] _];
    [ vm_compute; intro E; discriminate E | ].
  destruct (principal_deduction_sign exampleOver80C) as [[Hout _] _];
    [ vm_compute; intro E; discriminate E | ].
  split.
  - apply Hin. vm_compute. intro E. discriminate E.
  - intro H. apply Hout in H. revert H.
    vm_compute. intro H. apply H. reflexivity.
Defined.

(** ** The summary against the taxable income *)

(** X10.  The taxable income of the old regime is the gross income less the
    "Total Deductions" of the summary and less the part of the home-loan
    principal that Section 80C still admits,
    min(section80C + principal, 150000) - min(section80C, 150000), floored
    at zero; for a non-negative principal that part lies between 0 and the
    principal, so the summary never shows more than is deducted. *)
Theorem summary_understates_by_principal_share
        (sd : SalaryDetails) (d : Deductions) (gross : Q) :
  0 <= principal (homeLoan d) ->
  oldRegimeTaxableIncome sd d gross
  == Qmax 0
       (gross
        - displayTotalDeductions sd d
        - (Qmin (section80C d + principal (homeLoan d)) 150000
           - Qmin (section80C d) 150000))
  /\ 0 <= Qmin (section80C d + principal (homeLoan d)) 150000
          - Qmin (section80C d) 150000
  /\ Qmin (section80C d + principal (homeLoan d)) 150000
     - Qmin (section80C d) 150000
     <= principal (homeLoan d).
Proof.
  intro Hp.
  assert (Hc : combined80CDeduction d
               == Qmin (section80C d + principal (homeLoan d)) 150000).
  { unfold combined80CDeduction.
    rewrite section80C_plus_principal_share.
    unfold SECTION_80C_LIMIT. apply Q.min_l. apply Q.le_min_r. }
  assert (Hd : display80D d == section80DDeduction d).
  { unfold display80D, section80DDeduction, total80DLimit, parentsLimit,
      selfAndFamilyLimit.
    rewrite Q.min_comm.
    destruct (parentsSenior (section80D d)); reflexivity. }
  split; [ | split ].
  - unfold oldRegimeTaxableIncome, displayTotalDeductions.
    rewrite Hd.
    apply Q.max_compat; [ reflexivity | ].
    unfold calculateHomeLoanDeductions, hl_interest, SECTION_80C_LIMIT.
    rewrite Hc. unfold SECTION_80C_LIMIT. ring.
  - destruct (Q.min_spec (section80C d + principal (homeLoan d)) 150000)
      as [[H1 E1]|[H1 E1]];
      destruct (Q.min_spec (section80C d) 150000) as [[H2 E2]|[H2 E2]];
      rewrite E1, E2; lra.
  - destruct (Q.min_spec (section80C d + principal (homeLoan d)) 150000)
      as [[H1 E1]|[H1 E1]];
      destruct (Q.min_spec (section80C d) 150000) as [[H2 E2]|[H2 E2]];
      rewrite E1, E2; lra.
Qed.

Lemma summary_understates_by_principal_share_witness :
  oldRegimeTaxableIncome initialSalaryDetails examplePrincipalOnly 1000000
  == Qmax 0
       (1000000
        - displayTotalDeductions initialSalaryDetails examplePrincipalOnly
        - (Qmin (section80C examplePrincipalOnly
                 + principal (homeLoan examplePrincipalOnly)) 150000
           - Qmin (section80C examplePrincipalOnly) 150000)).
Proof.
  apply (summary_understates_by_principal_share
           initialSalaryDetails examplePrincipalOnly 1000000).
  vm_compute. intro E. discriminate E.
Defined.

(** ** More on the HRA exemption *)

(** X11.  With a non-negative basic salary and HRA received, the HRA
    exemption is 0 whenever the rent paid is at most 10% of the basic
    salary, in particular when no rent is paid. *)
Theorem calculateHRA_zero_without_rent (sd : SalaryDetails) :
  0 <= basic sd ->
  0 <= hraReceived sd ->
  rentPaid sd <= (1 # 10) * basic sd ->
  calculateHRA sd == 0.
Proof.
  intros Hb Hh Hr.
  assert (Hn := calculateHRA_nonneg sd Hb Hh).
  assert (H3 : hraRule3 sd == 0)
    by (unfold hraRule3; apply Q.max_l; lra).
  assert (Hle : calculateHRA sd <= hraRule3 sd)
    by (unfold calculateHRA; apply Q.le_min_r).
  lra.
Qed.

Lemma calculateHRA_zero_without_rent_witness :
  calculateHRA (mkSalary 50000 25000 5000 true) == 0.
Proof.
  apply (calculateHRA_zero_without_rent (mkSalary 50000 25000 5000 true));
    vm_compute; intro E; discriminate E.
Defined.

(** X12.  For a non-negative basic salary, ticking the metro-city box never
    lowers the HRA exemption. *)
Theorem calculateHRA_metro_not_lower (b h r : Q) :
  0 <= b ->
  calculateHRA (mkSalary b h r false) <= calculateHRA (mkSalary b h r true).
Proof.
  intro Hb. unfold calculateHRA, hraRule1, hraRule2, hraRule3. simpl.
  apply Q.min_le_compat_r. apply Q.min_le_compat_l. lra.
Qed.

Lemma calculateHRA_metro_not_lower_witness :
  calculateHRA (mkSalary 50000 25000 30000 false)
  <= calculateHRA (mkSalary 50000 25000 30000 true).
Proof.
  apply (calculateHRA_metro_not_lower 50000 25000 30000).
  vm_compute. intro E. discriminate E.
Defined.

(** X13.  The "Eligible HRA Exemption" of the HRA card, which is also the
    amount the old-regime taxable income loses, is one twelfth of the least
    of the three annual figures the card lists above it. *)
Theorem hraCard_exemption_is_a_twelfth (sd : SalaryDetails) :
  Qmin (Qmin (hraCardRule1 sd) (hraCardRule2 sd)) (hraCardRule3 sd)
  == 12 * calculateHRA sd.
Proof.
  unfold calculateHRA, hraCardRule1, hraCardRule2, hraCardRule3,
    hraRule1, hraRule2, hraRule3.
  set (c2 := (if metroCity sd then 1 # 2 else 2 # 5)).
  destruct (Q.max_spec 0 (rentPaid sd - (1 # 10) * basic sd))
    as [[M1 N1]|[M1 N1]];
    destruct (Q.max_spec 0 (rentPaid sd * 12 - (1 # 10) * basic sd * 12))
      as [[M2 N2]|[M2 N2]];
    rewrite N1, N2; try lra;
    match goal with
    | |- Qmin (Qmin ?a ?b) ?c == 12 * Qmin (Qmin ?x ?y) ?z =>
        destruct (Q.min_spec a b) as [[A1 B1]|[A1 B1]];
        destruct (Q.min_spec x y) as [[A2 B2]|[A2 B2]];
        rewrite B1, B2; try lra;
        match goal with
        | |- Qmin ?u ?c == 12 * Qmin ?v ?z =>
            destruct (Q.min_spec u c) as [[A3 B3]|[A3 B3]];
            destruct (Q.min_spec v z) as [[A4 B4]|[A4 B4]];
            rewrite B3, B4; lra
        end
    end.
Qed.

(** ** The input handlers *)

Lemma closureOldRegimeTax_eq (st : State) :
  closureOldRegimeTax st
  = calculateOldRegimeTax (salaryDetails st) (deductions st) (income st).
Proof.
  reflexivity.
Qed.

Lemma handleEvent_keeps_income (st : State) (e : Event) :
  isIncomeChange e = false ->
  income (handleEvent st e) = income st
  /\ newRegimeTax (handleEvent st e) = newRegimeTax st
  /\ oldRegimeTax (handleEvent st e) = closureOldRegimeTax st.
Proof.
  intro He.
  destruct e as [ v | key [ b | [ | | q ] ] | key [ | | q ]
                | type [ | | q ] | type [ | | q ] | checked | ];
    try discriminate He;
    (split; [ | split ]); cbn; reflexivity.
Qed.

Lemma handleEvent_newRegimeTax (st : State) (e : Event) :
  newRegimeTax st = calculateTax (income st) NEW_REGIME_SLABS ->
  newRegimeTax (handleEvent st e)
  = calculateTax (income (handleEvent st e)) NEW_REGIME_SLABS.
Proof.
  intro Hinv.
  destruct (isIncomeChange e) eqn:He.
  - destruct e as [ [ | | q ] | | | | | | ]; try discriminate He.
    + reflexivity.
    + exact Hinv.
    + reflexivity.
  - destruct (handleEvent_keeps_income st e He) as [Hi [Hn _]].
    rewrite Hi, Hn. exact Hinv.
Qed.

(** X14.  After any sequence of input events from the initial state, the
    stored new-regime tax is the slab tax of the stored income on the
    new-regime table. *)
Theorem newRegimeTax_follows_income (events : list Event) :
  newRegimeTax (runEvents initialState events)
  = calculateTax (income (runEvents initialState events)) NEW_REGIME_SLABS.
Proof.
  unfold runEvents.
  assert (Hinit : newRegimeTax initialState
                  = calculateTax (income initialState) NEW_REGIME_SLABS)
    by reflexivity.
  revert Hinit. generalize initialState as st.
  induction events as [ | e rest IH ]; intros st Hinv.
  - exact Hinv.
  - simpl. apply IH. apply handleEvent_newRegimeTax. exact Hinv.
Qed.

(** The inputs a second handling of [e], or of its blur event, leaves are
    those the first has left. *)
Lemma handleEvent_again (st : State) (e e' : Event) :
  isIncomeChange e = false ->
  e' = e \/ e' = blurEvent e ->
  salaryDetails (handleEvent (handleEvent st e) e')
  = salaryDetails (handleEvent st e)
  /\ deductions (handleEvent (handleEvent st e) e')
     = deductions (handleEvent st e)
  /\ isIncomeChange e' = false.
Proof.
  intros He [E | E]; subst e';
    destruct e as [ v | [ | | | ] [ b | [ | | q ] ] | [ | | | | | | ] [ | | q ]
                  | [ | ] [ | | q ] | [ | ] [ | | q ] | checked | ];
    try discriminate He;
    (split; [ | split ]); cbn; reflexivity.
Qed.

(** X15.  A handler other than the income handler stores the old-regime tax
    of the inputs before its own update, and leaves income and new-regime
    tax alone; when the same event, or the [onBlur] event of the same
    field, is handled next, the inputs stay and the stored old-regime tax
    is the one of the inputs now stored. *)
Theorem oldRegimeTax_one_event_late (st : State) (e e' : Event) :
  isIncomeChange e = false ->
  e' = e \/ e' = blurEvent e ->
  oldRegimeTax (handleEvent st e)
  = calculateOldRegimeTax (salaryDetails st) (deductions st) (income st)
  /\ income (handleEvent st e) = income st
  /\ newRegimeTax (handleEvent st e) = newRegimeTax st
  /\ salaryDetails (handleEvent (handleEvent st e) e')
     = salaryDetails (handleEvent st e)
  /\ deductions (handleEvent (handleEvent st e) e')
     = deductions (handleEvent st e)
  /\ oldRegimeTax (handleEvent (handleEvent st e) e')
     = calculateOldRegimeTax
         (salaryDetails (handleEvent (handleEvent st e) e'))
         (deductions (handleEvent (handleEvent st e) e'))
         (income (handleEvent (handleEvent st e) e')).
Proof.
  intros He He'.
  destruct (handleEvent_keeps_income st e He) as [Hi [Hn Ho]].
  destruct (handleEvent_again st e e' He He') as [Hsd [Hd He'']].
  destruct (handleEvent_keeps_income (handleEvent st e) e' He'')
    as [Hi' [_ Ho']].
  rewrite closureOldRegimeTax_eq in Ho, Ho'.
  rewrite Hsd, Hd, Hi'.
  split; [ exact Ho | ].
  split; [ exact Hi | ].
  split; [ exact Hn | ].
  split; [ reflexivity | ].
  split; [ reflexivity | ].
  exact Ho'.
Qed.

(** Income 1200000 entered on the example inputs, then a Section 80G
    donation of 50000 typed and the field left.  The inputs before the
    donation give an old-regime tax of 48499.90 and the inputs with it
    43499.90: after the change event the state holds the first, after the
    blur event the second. *)
Lemma oldRegimeTax_one_event_late_witness :
  oldRegimeTax (handleEvent exampleEnteredState exampleDonation)
  == 484999 # 10
  /\ calculateOldRegimeTax
       (salaryDetails (handleEvent exampleEnteredState exampleDonation))
       (deductions (handleEvent exampleEnteredState exampleDonation))
       (income (handleEvent exampleEnteredState exampleDonation))
     == 434999 # 10
  /\ section80G (deductions (handleEvent exampleEnteredState exampleDonation))
     == 50000
  /\ section80G (deductions exampleEnteredState) == 0
  /\ oldRegimeTax
       (handleEvent (handleEvent exampleEnteredState exampleDonation)
                    (blurEvent exampleDonation))
     == 434999 # 10.
Proof.
  destruct (oldRegimeTax_one_event_late
              exampleEnteredState exampleDonation (blurEvent exampleDonation))
    as [Hlate [_ [_ [Hsd [Hd Hsync]]]]].
  - reflexivity.
  - right. reflexivity.
  - split; [ rewrite Hlate; vm_compute; reflexivity | ].
    split; [ vm_compute; reflexivity | ].
    split; [ vm_compute; reflexivity | ].
    split; [ vm_compute; reflexivity | ].
    rewrite Hsync. vm_compute. reflexivity.
Defined.

(** X16.  The stored old-regime tax can differ from the old-regime tax of
    the stored inputs: after an income of 1000000 and then Section 80C
    investments of 150000 the state holds the tax of the income without the
    investments, 44999.90, while its own inputs give 29999.90. *)
Theorem oldRegimeTax_can_be_out_of_date :
  exists events : list Event,
    ~ oldRegimeTax (runEvents initialState events)
      == calculateOldRegimeTax
           (salaryDetails (runEvents initialState events))
           (deductions (runEvents initialState events))
           (income (runEvents initialState events)).
Proof.
  exists exampleEvents. vm_compute. intro E. discriminate E.
Qed.

(** X17.  The income handler leaves salary details and deductions alone.
    On a text that parses it stores the income and both taxes of the stored
    inputs.  On the empty text it stores income 0 and both taxes 0, which
    for non-negative salary details and deductions are again the taxes of
    the stored inputs. *)
Theorem handleIncomeChange_in_step (st : State) (value : InputValue) :
  nonNegativeInputs (salaryDetails st) (deductions st) ->
  value <> Unparsable ->
  salaryDetails (handleIncomeChange st value) = salaryDetails st
  /\ deductions (handleIncomeChange st value) = deductions st
  /\ storedNumber value = Some (income (handleIncomeChange st value))
  /\ newRegimeTax (handleIncomeChange st value)
     = calculateTax (income (handleIncomeChange st value)) NEW_REGIME_SLABS
  /\ oldRegimeTax (handleIncomeChange st value)
     == calculateOldRegimeTax
          (salaryDetails (handleIncomeChange st value))
          (deductions (handleIncomeChange st value))
          (income (handleIncomeChange st value)).
Proof.
  intros Hnn Hv. destruct value as [ | | q ].
  - split; [ reflexivity | ].
    split; [ reflexivity | ].
    split; [ reflexivity | ].
    split; [ reflexivity | ].
    simpl. symmetry.
    apply calculateOldRegimeTax_zero_band; [ exact Hnn | lra ].
  - contradiction Hv. reflexivity.
  - split; [ reflexivity | ].
    split; [ reflexivity | ].
    split; [ reflexivity | ].
    split; [ reflexivity | ].
    simpl. apply Qeq_refl.
Qed.

Lemma handleIncomeChange_in_step_witness :
  oldRegimeTax (handleIncomeChange exampleState EmptyText)
  == calculateOldRegimeTax
       (salaryDetails (handleIncomeChange exampleState EmptyText))
       (deductions (handleIncomeChange exampleState EmptyText))
       (income (handleIncomeChange exampleState EmptyText)).
Proof.
  apply (handleIncomeChange_in_step exampleState EmptyText).
  - repeat split; vm_compute; intro E; discriminate E.
  - intro E. discriminate E.
Defined.
